(** * LightGBM plotting module (python-package/lightgbm/plotting.py)

    A shallow embedding of the plotting helpers of the LightGBM Python
    package and the properties of them that its specification states.

    Conventions of the embedding:
    - Python numbers (importances, bin edges, metric values, thresholds)
      are rationals [Q]; the arithmetic of the source is written with the
      rational operations, the literals [0.2], [1.1] and [2] as the
      corresponding fractions.
    - An exception is a value of [exn]; a computation that can raise
      returns [res].
    - Calls on the matplotlib objects, warnings and accesses to the model
      are recorded, in order, in a trace of [call]s; a computation with
      such effects is a function on the trace and keeps the calls made
      before an exception.
    - The flags of [lightgbm.compat] and the text conversion of floats
      ([str] and the fixed-point [format]) are variables of the section. *)

From Stdlib Require Import ZArith QArith List String Ascii Bool Lia.
From Stdlib Require Import Sorted Permutation.
From stdpp Require Import base gmap strings list pretty.

Open Scope string_scope.
Open Scope list_scope.
Open Scope Z_scope.

(** ** Exceptions and results *)

Inductive exn : Type :=
| ImportError (msg : string)
| TypeError (msg : string)
| ValueError (msg : string)
| KeyError (msg : string)
| IndexError (msg : string)
| StopIteration.

Inductive res (A : Type) : Type :=
| Ok (a : A)
| Raise (e : exn).

Arguments Ok {A} a.
Arguments Raise {A} e.

Definition res_bind {A B : Type} (m : res A) (k : A -> res B) : res B :=
  match m with
  | Ok a => k a
  | Raise e => Raise e
  end.

Declare Scope res_scope.
Delimit Scope res_scope with res.
Notation "'try' x <- m ; k" := (res_bind m (fun x => k))
  (at level 10, x pattern, m at level 100, k at level 200) : res_scope.

(** ** Python values used by the module *)

(** A number or a text: what [_float2str] receives. *)
Inductive value : Type :=
| PNum (x : Q)
| PStr (s : string).

(** A caller-supplied object passed on to graphviz or checked by
    [_check_not_tuple_of_2_elements]. *)
Inductive pyobj : Type :=
| OBool (b : bool)
| OInt (n : Z)
| OStr (s : string)
| OTuple (items : list Q)
| OList (items : list Q)
| ODict (items : list (string * string))
| OOther.

(** [l[i]] on a Python list, for an index that fits the index type of the
    interpreter: a negative index counts from the end, an index outside
    [-len, len) raises IndexError. *)
Definition getitem {A : Type} (l : list A) (i : Z) : res A :=
  let n := Z.of_nat (length l) in
  let j := if i <? 0 then i + n else i in
  if (0 <=? j) && (j <? n)
  then match l !! Z.to_nat j with
       | Some x => Ok x
       | None => Raise (IndexError "list index out of range")
       end
  else Raise (IndexError "list index out of range").

(** An integer that fits the index type of a 64-bit interpreter. Indexing
    with one beyond it raises an IndexError as well, but with a message of
    the interpreter's own, whatever the list is. *)
Definition index_sized (i : Z) : bool := (- 2 ^ 63 <=? i) && (i <? 2 ^ 63).

Definition _check_not_tuple_of_2_elements (obj : pyobj) (obj_name : string)
    : res unit :=
  match obj with
  | OTuple [_; _] => Ok tt
  | _ => Raise (TypeError (obj_name +:+ " must be a tuple of 2 elements."))
  end.

(** Truth value of an object in a condition. *)
Definition truthy (o : option pyobj) : bool :=
  match o with
  | None => false
  | Some (OBool b) => b
  | Some (OInt n) => negb (n =? 0)
  | Some OOther => true
  | Some (OStr s) => negb (String.eqb s "")
  | Some (OTuple items) | Some (OList items) =>
      match items with [] => false | _ => true end
  | Some (ODict items) => match items with [] => false | _ => true end
  end.

Definition Qltb (x y : Q) : bool := negb (Qle_bool y x).

(** The built-in [max] and [min]: of two arguments, the first unless the
    second is strictly beyond it; of a sequence, the same from left to
    right, ValueError on an empty one. *)
Definition max2 (a b : Q) : Q := if Qltb a b then b else a.
Definition min2 (a b : Q) : Q := if Qltb b a then b else a.

Definition py_max (l : list Q) : res Q :=
  match l with
  | [] => Raise (ValueError "max() arg is an empty sequence")
  | x :: l' => Ok (fold_left max2 l' x)
  end.

Definition py_min (l : list Q) : res Q :=
  match l with
  | [] => Raise (ValueError "min() arg is an empty sequence")
  | x :: l' => Ok (fold_left min2 l' x)
  end.

(** [sorted(l, key=lambda x: x[1])]: stable, ascending by the second
    component. *)
Fixpoint insert_by_score {A : Type} (x : A * Q) (l : list (A * Q))
    : list (A * Q) :=
  match l with
  | [] => [x]
  | y :: l' => if Qle_bool (snd x) (snd y) then x :: y :: l'
               else y :: insert_by_score x l'
  end.

Fixpoint sorted_by_score {A : Type} (l : list (A * Q)) : list (A * Q) :=
  match l with
  | [] => []
  | x :: l' => insert_by_score x (sorted_by_score l')
  end.

(** [zip(a, b)] stops at the shorter sequence. *)
Fixpoint zip_ {A B : Type} (a : list A) (b : list B) : list (A * B) :=
  match a, b with
  | x :: a', y :: b' => (x, y) :: zip_ a' b'
  | _, _ => []
  end.

(** [l[-n:]] for a positive [n]: the last [n] items, all of them when
    there are fewer. *)
Definition last_items {A : Type} (n : Z) (l : list A) : list A :=
  drop (length l - Z.to_nat n)%nat l.

(** Unpacking the transposed [tuples] into [labels, values]: an empty list
    transposes to nothing and the unpacking fails. *)
Definition unzip_pairs {A B : Type} (tuples : list (A * B))
    : res (list A * list B) :=
  match tuples with
  | [] => Raise (ValueError "not enough values to unpack (expected 2, got 0)")
  | _ => Ok (map fst tuples, map snd tuples)
  end.

(** [range(n)] and [np.arange(n)]. *)
Definition range_ (n : nat) : list Z := map Z.of_nat (seq 0 n).

(** [s.replace(old, new)] for a non-empty [old]. *)
Fixpoint replace_from (old new : string) (skip : nat) (s : string) : string :=
  match s with
  | EmptyString => EmptyString
  | String c s' =>
      match skip with
      | S k => replace_from old new k s'
      | O => if String.prefix old s
             then new +:+ replace_from old new (String.length old - 1) s'
             else String c (replace_from old new 0 s')
      end
  end.

Definition str_replace (s old new : string) : string :=
  replace_from old new 0 s.

(** [s[4:]]. *)
Definition drop4 (s : string) : string :=
  String.substring 4 (String.length s - 4) s.

(** Whether the texts of a list are pairwise different. *)
Fixpoint distinct (l : list string) : bool :=
  match l with
  | [] => true
  | x :: l' => negb (existsb (String.eqb x) l') && distinct l'
  end.

(** Dictionaries whose order matters are association lists with distinct
    keys, in insertion order. *)
Fixpoint dict_get {V : Type} (d : list (string * V)) (k : string) : option V :=
  match d with
  | [] => None
  | (k', v) :: d' => if String.eqb k' k then Some v else dict_get d' k
  end.

Fixpoint dict_set {V : Type} (d : list (string * V)) (k : string) (v : V)
    : list (string * V) :=
  match d with
  | [] => [(k, v)]
  | (k', v') :: d' => if String.eqb k' k then (k, v) :: d'
                      else (k', v') :: dict_set d' k v
  end.

(** [d.popitem()]: the pair inserted last, and the dictionary without it. *)
Definition popitem {V : Type} (d : list (string * V))
    : res ((string * V) * list (string * V)) :=
  match last d with
  | Some kv => Ok (kv, removelast d)
  | None => Raise (KeyError "popitem(): dictionary is empty")
  end.

(** [a[i]] on a one-dimensional numpy array: as on a list, with numpy's
    message. *)
Definition np_getitem {A : Type} (a : list A) (i : Z) : res A :=
  match getitem a i with
  | Ok x => Ok x
  | Raise _ =>
      Raise (IndexError ("index " +:+ pretty i
                         +:+ " is out of bounds for axis 0 with size "
                         +:+ pretty (Z.of_nat (length a))))
  end.

(** ** The tree description of a dumped model *)

(** A node of [tree_structure] is a dict. One with the key [split_index]
    is an internal node and has the keys of [Split], its two children
    under [left_child] and [right_child]; any other node is a leaf with the
    keys of [Leaf]. The decision type is kept as the text of the dump. *)
Inductive tree : Type :=
| Leaf (leaf_index : Z) (leaf_value : value) (leaf_count : Z)
| Split (split_index : Z) (split_feature : Z) (threshold : value)
        (decision_type : string) (split_gain internal_value : value)
        (internal_count : Z) (left_child right_child : tree).

Record tree_info_t : Type := { tree_structure : tree }.

Record model_t : Type := {
  tree_info : list tree_info_t;
  feature_names : option (list string)
}.

Fixpoint internal_nodes (t : tree) : nat :=
  match t with
  | Leaf _ _ _ => 0
  | Split _ _ _ _ _ _ _ l r => S (internal_nodes l + internal_nodes r)
  end.

Fixpoint leaf_nodes (t : tree) : nat :=
  match t with
  | Leaf _ _ _ => 1
  | Split _ _ _ _ _ _ _ l r => leaf_nodes l + leaf_nodes r
  end.

(** [s] occurs in [t] (as [t] itself or below it). *)
Inductive subtree (s : tree) : tree -> Prop :=
| subtree_refl : subtree s s
| subtree_left si sf th dt sg iv ic l r :
    subtree s l -> subtree s (Split si sf th dt sg iv ic l r)
| subtree_right si sf th dt sg iv ic l r :
    subtree s r -> subtree s (Split si sf th dt sg iv ic l r).

(** ** The graphviz object: its options and the statements added so far *)

Inductive stmt : Type :=
| Node (name label : string)
| Edge (tail head : string) (label : option string).

Record Digraph : Type := {
  graph_kwargs : gmap string pyobj;
  body : list stmt
}.

Definition new_Digraph (kwargs : gmap string pyobj) : Digraph :=
  {| graph_kwargs := kwargs; body := [] |}.

Definition graph_node (g : Digraph) (name label : string) : Digraph :=
  {| graph_kwargs := graph_kwargs g; body := body g ++ [Node name label] |}.

Definition graph_edge (g : Digraph) (tail head : string)
    (label : option string) : Digraph :=
  {| graph_kwargs := graph_kwargs g; body := body g ++ [Edge tail head label] |}.

Definition is_node (s : stmt) : bool :=
  match s with Node _ _ => true | Edge _ _ _ => false end.

Definition is_edge (s : stmt) : bool :=
  match s with Node _ _ => false | Edge _ _ _ => true end.

Definition node_count (g : Digraph) : nat :=
  length (List.filter is_node (body g)).
Definition edge_count (g : Digraph) : nat :=
  length (List.filter is_edge (body g)).

(** ** The model handles *)

(** A feature given by index or by name. *)
Inductive feature_id : Type :=
| FIndex (i : Z)
| FName (name : string).

(** The [bins] argument: an int or the name of a binning rule. *)
Inductive bins_arg : Type :=
| BinsInt (n : Z)
| BinsStr (rule : string).

(** dataset name -> metric name -> values per iteration *)
Definition eval_results_t : Type := list (string * list (string * list Q)).

Record Booster : Type := {
  feature_importance : string -> list Q;
  feature_name : list string;
  get_split_value_histogram :
    feature_id -> option bins_arg -> list Z * list Q;
  dump_model : model_t
}.

Record LGBMModel : Type := {
  booster_ : Booster;
  evals_result_ : eval_results_t
}.

(** What a caller can pass as [booster]. *)
Inductive handle : Type :=
| HLGBMModel (m : LGBMModel)
| HBooster (b : Booster)
| HDict (d : eval_results_t)
| HOther.

(** What a caller can pass as [dataset_names] besides None: a list, tuple
    or set, in its iteration order, or some other object. *)
Inductive names_arg : Type :=
| NamesSeq (names : list string)
| NamesOther.

(** The axes a plot is drawn on: the caller's or the one of a new figure. *)
Inductive Axes : Type :=
| CallerAxes (id : Z)
| NewAxes (figsize : option pyobj).

(** ** Effects: the calls a function makes, in order *)

Inductive call : Type :=
| Warn (category message : string)
| FeatureImportance (importance_type : string)
| FeatureName
| GetSplitValueHistogram (feature : feature_id) (bins : option bins_arg)
| DumpModel
| Subplots (figsize : option pyobj)
| Barh (ylocs : list Z) (values : list Q) (height : Q)
       (kwargs : gmap string pyobj)
| Text (x : Q) (y : Z) (s : value)
| SetYticks (ylocs : list Z)
| SetYticklabels (labels : list string)
| Bar (centred : list Q) (hist : list Z) (width : Q)
      (kwargs : gmap string pyobj)
| Plot (xs : list Z) (results : list Q) (label : string)
| Legend
| SetXlim (xlim : pyobj)
| SetYlim (ylim : pyobj)
| SetMajorLocator
| SetTitle (title : string)
| SetXlabel (xlabel : string)
| SetYlabel (ylabel : string)
| Grid (grid : bool)
| Pipe (graph : Digraph) (format : string)
| Imshow (graph : Digraph)
| AxisOff.

(** The calls that create or change a plot surface. *)
Definition is_rendering (c : call) : bool :=
  match c with
  | Warn _ _ | FeatureImportance _ | FeatureName
  | GetSplitValueHistogram _ _ | DumpModel | Pipe _ _ => false
  | _ => true
  end.

(** A computation with effects: from the calls made so far to the calls
    made after it and its result. The calls made before an exception stay. *)
Definition M (A : Type) : Type := list call -> list call * res A.

Definition ret {A : Type} (a : A) : M A := fun tr => (tr, Ok a).

Definition raise {A : Type} (e : exn) : M A := fun tr => (tr, Raise e).

Definition bind {A B : Type} (m : M A) (k : A -> M B) : M B :=
  fun tr => match m tr with
            | (tr', Ok a) => k a tr'
            | (tr', Raise e) => (tr', Raise e)
            end.

Definition emit (c : call) : M unit := fun tr => (tr ++ [c], Ok tt).

Definition lift {A : Type} (r : res A) : M A := fun tr => (tr, r).

Definition when (b : bool) (m : M unit) : M unit := if b then m else ret tt.

(** [for x in l: body x] *)
Fixpoint for_each {A : Type} (l : list A) (body : A -> M unit) : M unit :=
  match l with
  | [] => ret tt
  | x :: l' => bind (body x) (fun _ => for_each l' body)
  end.

Declare Scope M_scope.
Delimit Scope M_scope with M.
Notation "'do' x <- m ; k" := (bind m (fun x => k))
  (at level 10, x pattern, m at level 100, k at level 200) : M_scope.
Notation "m ;; k" := (bind m (fun _ => k))
  (at level 100, k at level 200, right associativity) : M_scope.

(** The synthetic name [add] gives to a node. *)
Definition node_name (t : tree) : string :=
  match t with
  | Leaf li _ _ => "leaf" +:+ pretty li
  | Split si _ _ _ _ _ _ _ _ => "split" +:+ pretty si
  end.

(** The branch labels of a decision type, or the ValueError of [add]. *)
Definition decision_labels (decision_type : string) : res (string * string) :=
  if String.eqb decision_type "<=" then Ok ("<=", ">")
  else if String.eqb decision_type "==" then Ok ("is", "isn't")
  else Raise (ValueError "Invalid decision type in tree model.").

Definition valid_decision (decision_type : string) : bool :=
  String.eqb decision_type "<=" || String.eqb decision_type "==".

(** Numbers of node and edge statements in a list of statements. *)
Definition counts (ss : list stmt) (nodes edges : nat) : Prop :=
  length (List.filter is_node ss) = nodes
  /\ length (List.filter is_edge ss) = edges.

(** [tail -> head] goes from an internal node of [t] to one of its two
    children. *)
Definition child_edge (t : tree) (tail head : string) : Prop :=
  exists si sf th dt sg iv ic l r,
    subtree (Split si sf th dt sg iv ic l r) t
    /\ tail = node_name (Split si sf th dt sg iv ic l r)
    /\ (head = node_name l \/ head = node_name r).

(** A computation that only adds calls to the trace. *)
Definition appends {A : Type} (m : M A) : Prop :=
  forall tr, exists ss, fst (m tr) = tr ++ ss.

(** Ascending by score. *)
Definition score_le {A : Type} (x y : A * Q) : Prop := (snd x <= snd y)%Q.

(** A fresh run: no call made yet. *)
Definition run {A : Type} (m : M A) : list call * res A := m [].


Definition maximum_of (M : Q) (l : list Q) : Prop :=
  In M l /\ forall x, In x l -> (x <= M)%Q.


Definition is_plot (c : call) : bool :=
  match c with Plot _ _ _ => true | _ => false end.


Definition is_deprecation_warning (c : call) : Prop :=
  exists message, c = Warn "LGBMDeprecationWarning" message.

(** The calls of [set_opt]. *)
Definition opt_calls (setter : string -> call) (text : option string)
    : list call :=
  match text with
  | Some t => [setter t]
  | None => []
  end.

(** The names of the nodes of a tree, parent first, then the left subtree,
    then the right one. *)
Fixpoint preorder_names (t : tree) : list string :=
  match t with
  | Leaf _ _ _ => [node_name t]
  | Split _ _ _ _ _ _ _ l r => node_name t :: preorder_names l ++ preorder_names r
  end.

(** The names of the node statements of a graph, in the order they were
    added. *)
Definition node_names (ss : list stmt) : list string :=
  flat_map (fun s => match s with
                     | Node name _ => [name]
                     | Edge _ _ _ => []
                     end) ss.

(** The entries of [show_info] that [_to_graphviz] looks for. *)
Definition known_info (info : string) : bool :=
  String.eqb info "split_gain" || String.eqb info "internal_value"
  || String.eqb info "internal_count" || String.eqb info "leaf_count".

(** The labels of the line series drawn in a trace, in order. *)
Definition plot_labels (tr : list call) : list string :=
  flat_map (fun c => match c with
                     | Plot _ _ label => [label]
                     | _ => []
                     end) tr.

Definition is_warning (c : call) : bool :=
  match c with Warn _ _ => true | _ => false end.

(** Whether the character [@], with which both placeholders of a title
    start, occurs in a text. *)
Fixpoint has_at (s : string) : bool :=
  match s with
  | EmptyString => false
  | String c s' => Ascii.eqb c "@" || has_at s'
  end.

(** The evaluation record that [plot_metric] reads from its first
    argument. *)
Definition evals_of (booster : handle) : option eval_results_t :=
  match booster with
  | HLGBMModel m => Some (evals_result_ m)
  | HDict d => Some d
  | _ => None
  end.

(** The dataset names that [plot_metric] goes through. *)
Definition names_of (dataset_names : option names_arg)
    (eval_results : eval_results_t) : list string :=
  match dataset_names with
  | None => map fst eval_results
  | Some (NamesSeq names) => names
  | Some NamesOther => []
  end.

Definition series_plot (x_ : list Z) (series : string * list Q) : call :=
  Plot x_ (snd series) (fst series).


Definition metric_warning : call :=
  Warn "UserWarning" "more than one metric available, picking one to plot.".

(** ** Well-formed tree descriptions *)

(** The split feature is an index into the feature names, when there are
    names. *)
Definition feature_known (names : option (list string)) (split_feature : Z)
    : bool :=
  match names with
  | None => true
  | Some l => (- Z.of_nat (length l) <=? split_feature)
              && (split_feature <? Z.of_nat (length l))
  end.

Fixpoint features_known (names : option (list string)) (t : tree) : bool :=
  match t with
  | Leaf _ _ _ => true
  | Split _ sf _ _ _ _ _ l r =>
      feature_known names sf && features_known names l && features_known names r
  end.

Fixpoint decisions_valid (t : tree) : bool :=
  match t with
  | Leaf _ _ _ => true
  | Split _ _ _ dt _ _ _ l r =>
      valid_decision dt && decisions_valid l && decisions_valid r
  end.

Definition well_formed (names : option (list string)) (t : tree) : bool :=
  features_known names t && decisions_valid t.


(** ** Sample inputs *)

(** A text conversion of numbers to run the examples with: an integer in
    decimal, another rational as a fraction. *)
Definition sample_str (x : Q) : string :=
  let x := Qred x in
  if (Zpos (Qden x) =? 1) then pretty (Qnum x)
  else pretty (Qnum x) +:+ "/" +:+ pretty (Zpos (Qden x)).

Definition sample_fixed (x : Q) (precision : Z) : string :=
  sample_str x +:+ "@" +:+ pretty precision.

(** The tree of the second scenario of the specification. *)
Definition stump : tree :=
  Split 0 0 (PNum 1.5) "<=" (PNum 0) (PNum 0) 2
    (Leaf 0 (PNum (-1)) 1) (Leaf 1 (PNum 1) 1).

Definition stump_categorical : tree :=
  Split 0 0 (PStr "1||3") "==" (PNum 0) (PNum 0) 2
    (Leaf 0 (PNum (-1)) 1) (Leaf 1 (PNum 1) 1).

(** A tree whose right child has a decision type that does not exist. *)
Definition broken_tree : tree :=
  Split 0 0 (PNum 1.5) "<="  (PNum 0) (PNum 0) 4
    (Leaf 0 (PNum (-1)) 1)
    (Split 1 1 (PNum 2) "<" (PNum 0) (PNum 0) 3
       (Leaf 1 (PNum 0) 1) (Leaf 2 (PNum 1) 2)).


Definition sample_model (trees : list tree) : model_t :=
  {| tree_info := map (fun t => {| tree_structure := t |}) trees;
     feature_names := Some ["f0"; "f1"] |}.

Definition sample_booster (importance : list Q) (names : list string)
    (hist : list Z) (edges : list Q) (trees : list tree) : Booster :=
  {| feature_importance := fun _ => importance;
     feature_name := names;
     get_split_value_histogram := fun _ _ => (hist, edges);
     dump_model := sample_model trees |}.

(** The deprecated parameters of [create_tree_digraph]. *)
Record old_params : Type := {
  old_name : option pyobj;
  old_comment : option pyobj;
  old_filename : option pyobj;
  old_directory : option pyobj;
  old_format : option pyobj;
  old_engine : option pyobj;
  old_encoding : option pyobj;
  old_graph_attr : option pyobj;
  old_node_attr : option pyobj;
  old_edge_attr : option pyobj;
  old_body : option pyobj;
  old_strict : bool
}.

Definition no_old_params : old_params :=
  {| old_name := None; old_comment := None; old_filename := None;
     old_directory := None; old_format := None; old_engine := None;
     old_encoding := None; old_graph_attr := None; old_node_attr := None;
     old_edge_attr := None; old_body := None; old_strict := false |}.

Definition strict_only : old_params :=
  {| old_name := None; old_comment := None; old_filename := None;
     old_directory := None; old_format := None; old_engine := None;
     old_encoding := None; old_graph_attr := None; old_node_attr := None;
     old_edge_attr := None; old_body := None; old_strict := true |}.

Definition name_only : old_params :=
  {| old_name := Some (OStr "g"); old_comment := None; old_filename := None;
     old_directory := None; old_format := None; old_engine := None;
     old_encoding := None; old_graph_attr := None; old_node_attr := None;
     old_edge_attr := None; old_body := None; old_strict := false |}.

Definition with_old_strict (old : old_params) (strict : bool) : old_params :=
  {| old_name := old_name old; old_comment := old_comment old;
     old_filename := old_filename old; old_directory := old_directory old;
     old_format := old_format old; old_engine := old_engine old;
     old_encoding := old_encoding old; old_graph_attr := old_graph_attr old;
     old_node_attr := old_node_attr old; old_edge_attr := old_edge_attr old;
     old_body := old_body old; old_strict := strict |}.

(** The importances of the first scenario of the specification, a
    histogram with four bin edges and two trees. *)
Definition demo_booster : Booster :=
  sample_booster [5; 0; 10]%Q ["A"; "B"; "C"] [1; 0; 2] [0; 1; 2; 3]%Q
    [stump; broken_tree].

(** A booster whose features were never used. *)
Definition zero_booster : Booster :=
  sample_booster [0; 0]%Q ["A"; "B"] [0; 0] [0; 1; 2]%Q [stump].

(** A record of two metrics for two datasets. *)
Definition demo_evals2 : eval_results_t :=
  [("train", [("l1", [0.4; 0.3]%Q); ("l2", [0.5; 0.2]%Q)]);
   ("valid", [("l1", [0.6; 0.5]%Q); ("l2", [0.7; 0.1]%Q)])].

(** The evaluation record of the third scenario of the specification. *)
Definition demo_evals : eval_results_t :=
  [("train", [("l2", [0.5; 0.3; 0.2]%Q)])].

Section Plotting.

(** The availability flags imported from [lightgbm.compat]. *)
Variable MATPLOTLIB_INSTALLED : bool.
Variable GRAPHVIZ_INSTALLED : bool.

(** The conversions of a float to text: [str(x)] and
    ["{0:.{1}f}".format(x, precision)]. *)
Variable str_float : Q -> string.
Variable format_fixed : Q -> Z -> string.

Definition _float2str (v : value) (precision : option Z) : string :=
  match precision, v with
  | Some p, PNum x => format_fixed x p
  | _, PNum x => str_float x
  | _, PStr s => s
  end.

(** *** _to_graphviz *)

Section Walker.

Variable show_info : list string.
Variable feature_names_arg : option (list string).
Variable precision : option Z.

(** The label lines that the loop over [show_info] appends for a split. *)
Definition split_info_lines (split_gain internal_value : value)
    (internal_count : Z) (label : string) : string :=
  fold_left (fun label info =>
    if String.eqb info "split_gain"
    then label +:+ "\n" +:+ info +:+ ": " +:+ _float2str split_gain precision
    else if String.eqb info "internal_value"
    then label +:+ "\n" +:+ info +:+ ": " +:+ _float2str internal_value precision
    else if String.eqb info "internal_count"
    then label +:+ "\n" +:+ info +:+ ": " +:+ pretty internal_count
    else label) show_info label.

Definition split_label (split_feature : Z) (threshold : value)
    (split_gain internal_value : value) (internal_count : Z) : res string :=
  (try label <- match feature_names_arg with
                | Some names =>
                    try fname <- getitem names split_feature;
                    Ok ("split_feature_name: " +:+ fname)
                | None => Ok ("split_feature_index: " +:+ pretty split_feature)
                end;
   let label := label +:+ "\nthreshold: " +:+ _float2str threshold precision in
   Ok (split_info_lines split_gain internal_value internal_count label))%res.

Definition leaf_label (leaf_index : Z) (leaf_value : value) (leaf_count : Z)
    : string :=
  let label := "leaf_index: " +:+ pretty leaf_index in
  let label := label +:+ "\nleaf_value: " +:+ _float2str leaf_value precision in
  if existsb (String.eqb "leaf_count") show_info
  then label +:+ "\nleaf_count: " +:+ pretty leaf_count
  else label.

Definition edge_to_parent (graph : Digraph) (parent : option string)
    (name : string) (decision : option string) : Digraph :=
  match parent with
  | Some p => graph_edge graph p name decision
  | None => graph
  end.

(** The closure [add], with the captured graph passed and returned. *)
Fixpoint add (root : tree) (parent decision : option string)
    (graph : Digraph) : res Digraph :=
  match root with
  | Split si sf th dt sg iv ic l r =>
      let name := "split" +:+ pretty si in
      (try label <- split_label sf th sg iv ic;
       let graph := graph_node graph name label in
       try (l_dec, r_dec) <- decision_labels dt;
       try graph <- add l (Some name) (Some l_dec) graph;
       try graph <- add r (Some name) (Some r_dec) graph;
       Ok (edge_to_parent graph parent name decision))%res
  | Leaf li lv lc =>
      let name := "leaf" +:+ pretty li in
      let graph := graph_node graph name (leaf_label li lv lc) in
      Ok (edge_to_parent graph parent name decision)
  end.

End Walker.

Definition _to_graphviz (tree_info : tree_info_t) (show_info : list string)
    (feature_names : option (list string)) (precision : option Z)
    (kwargs : gmap string pyobj) : res Digraph :=
  if GRAPHVIZ_INSTALLED
  then add show_info feature_names precision (tree_structure tree_info)
         None None (new_Digraph kwargs)
  else Raise (ImportError "You must install graphviz to plot tree.").

(** *** Steps shared by the plotting functions *)

Definition booster_of (booster : handle) : res Booster :=
  match booster with
  | HLGBMModel m => Ok (booster_ m)
  | HBooster b => Ok b
  | _ => Raise (TypeError "booster must be Booster or LGBMModel.")
  end.

(** [if ax is None: ...]: the figsize check, then [plt.subplots]. *)
Definition get_axes (ax : option Axes) (figsize : option pyobj) : M Axes :=
  match ax with
  | Some a => ret a
  | None =>
      (match figsize with
       | Some f => lift (_check_not_tuple_of_2_elements f "figsize")
       | None => ret tt
       end ;;
       emit (Subplots figsize) ;;
       ret (NewAxes figsize))%M
  end.

(** The check of a given range, or its default, then the setter. *)
Definition set_lim (setter : pyobj -> call) (lim : option pyobj)
    (name : string) (default : res pyobj) : M unit :=
  (do l <- match lim with
           | Some l => lift (_check_not_tuple_of_2_elements l name) ;; ret l
           | None => lift default
           end;
   emit (setter l))%M.

Definition set_opt (setter : string -> call) (text : option string) : M unit :=
  match text with
  | Some t => emit (setter t)
  | None => ret tt
  end.

(** *** plot_importance *)

(** Lines 99-103: the pairs that are plotted. *)
Definition select_tuples (feature_name : list string) (importance : list Q)
    (ignore_zero : bool) (max_num_features : option Z) : list (string * Q) :=
  let tuples := sorted_by_score (zip_ feature_name importance) in
  let tuples := if ignore_zero
                then List.filter (fun x => Qltb 0 (snd x)) tuples
                else tuples in
  match max_num_features with
  | Some n => if 0 <? n then last_items n tuples else tuples
  | None => tuples
  end.

(** The annotation of one bar: [ax.text(x + 1, y, ...)]. *)
Definition bar_text (importance_type : string) (precision : option Z)
    (xy : Q * Z) : call :=
  let x := fst xy in
  let y := snd xy in
  Text (x + 1)%Q y
    (if String.eqb importance_type "gain"
     then PStr (_float2str (PNum x) precision)
     else PNum x).

Definition plot_importance (booster : handle) (ax : option Axes) (height : Q)
    (xlim ylim : option pyobj) (title xlabel ylabel : option string)
    (importance_type : string) (max_num_features : option Z)
    (ignore_zero : bool) (figsize : option pyobj) (grid : bool)
    (precision : option Z) (kwargs : gmap string pyobj) : M Axes :=
  (when (negb MATPLOTLIB_INSTALLED)
     (raise (ImportError "You must install matplotlib to plot importance.")) ;;
   do booster <- lift (booster_of booster);
   emit (FeatureImportance importance_type) ;;
   let importance := feature_importance booster importance_type in
   emit FeatureName ;;
   let feature_name := feature_name booster in
   when (length importance =? 0)%nat
     (raise (ValueError "Booster's feature_importance is empty.")) ;;
   let tuples :=
     select_tuples feature_name importance ignore_zero max_num_features in
   do (labels, values) <- lift (unzip_pairs tuples);
   do ax <- get_axes ax figsize;
   let ylocs := range_ (length values) in
   emit (Barh ylocs values height kwargs) ;;
   for_each (zip_ values ylocs) (fun xy =>
     emit (bar_text importance_type precision xy)) ;;
   emit (SetYticks ylocs) ;;
   emit (SetYticklabels labels) ;;
   set_lim SetXlim xlim "xlim"
     (try m <- py_max values; Ok (OTuple [0%Q; (m * 1.1)%Q]))%res ;;
   set_lim SetYlim ylim "ylim"
     (Ok (OTuple [(-1)%Q; inject_Z (Z.of_nat (length values))])) ;;
   set_opt SetTitle title ;;
   set_opt SetXlabel xlabel ;;
   set_opt SetYlabel ylabel ;;
   emit (Grid grid) ;;
   ret ax)%M.

(** *** plot_split_value_histogram *)

(** [(bins[:-1] + bins[1:]) / 2] *)
Definition centred_of (bins : list Q) : list Q :=
  map (fun ab => ((fst ab + snd ab) / 2)%Q) (zip_ (removelast bins) (tail bins)).

Definition str_feature (feature : feature_id) : string :=
  match feature with
  | FIndex i => pretty i
  | FName name => name
  end.

Definition plot_split_value_histogram (booster : handle) (feature : feature_id)
    (bins : option bins_arg) (ax : option Axes) (width_coef : Q)
    (xlim ylim : option pyobj) (title xlabel ylabel : option string)
    (figsize : option pyobj) (grid : bool) (kwargs : gmap string pyobj)
    : M Axes :=
  (when (negb MATPLOTLIB_INSTALLED)
     (raise (ImportError
        "You must install matplotlib to plot split value histogram.")) ;;
   do booster <- lift (booster_of booster);
   emit (GetSplitValueHistogram feature bins) ;;
   let hist := fst (get_split_value_histogram booster feature bins) in
   let bins := snd (get_split_value_histogram booster feature bins) in
   when (forallb (Z.eqb 0) hist)
     (raise (ValueError
        ("Cannot plot split value histogram, because feature "
         +:+ str_feature feature +:+ " was not used in splitting"))) ;;
   do b1 <- lift (np_getitem bins 1);
   do b0 <- lift (np_getitem bins 0);
   let width := (width_coef * (b1 - b0))%Q in
   let centred := centred_of bins in
   do ax <- get_axes ax figsize;
   emit (Bar centred hist width kwargs) ;;
   set_lim SetXlim xlim "xlim"
     (try blast <- np_getitem bins (-1);
      try bfirst <- np_getitem bins 0;
      let range_result := (blast - bfirst)%Q in
      Ok (OTuple [(bfirst - range_result * 0.2)%Q;
                  (blast + range_result * 0.2)%Q]))%res ;;
   emit SetMajorLocator ;;
   set_lim SetYlim ylim "ylim"
     (try m <- py_max (map inject_Z hist); Ok (OTuple [0%Q; (m * 1.1)%Q]))%res ;;
   match title with
   | Some title =>
       let title := str_replace title "@feature@" (str_feature feature) in
       let title := str_replace title "@index/name@"
                      (match feature with
                       | FName _ => "name"
                       | FIndex _ => "index"
                       end) in
       emit (SetTitle title)
   | None => ret tt
   end ;;
   set_opt SetXlabel xlabel ;;
   set_opt SetYlabel ylabel ;;
   emit (Grid grid) ;;
   ret ax)%M.

(** *** plot_metric *)

Definition dict_getitem {V : Type} (d : list (string * V)) (k : string)
    : res V :=
  match dict_get d k with
  | Some v => Ok v
  | None => Raise (KeyError k)
  end.

(** The loop over the remaining dataset names: one line each, and the
    running maximum and minimum. *)
Fixpoint plot_rest (eval_results : eval_results_t) (metric : string)
    (x_ : list Z) (dataset_names : list string) (max_result min_result : Q)
    : M (Q * Q) :=
  match dataset_names with
  | [] => ret (max_result, min_result)
  | name :: dataset_names' =>
      (do metrics_for_one <- lift (dict_getitem eval_results name);
       do results <- lift (dict_getitem metrics_for_one metric);
       do rmax <- lift (py_max results);
       do rmin <- lift (py_min results);
       let max_result := max2 rmax max_result in
       let min_result := min2 rmin min_result in
       emit (Plot x_ results name) ;;
       plot_rest eval_results metric x_ dataset_names' max_result min_result)%M
  end.

Definition plot_metric (booster : handle) (metric : option string)
    (dataset_names : option names_arg) (ax : option Axes)
    (xlim ylim : option pyobj) (title xlabel ylabel : option string)
    (figsize : option pyobj) (grid : bool) : M Axes :=
  (when (negb MATPLOTLIB_INSTALLED)
     (raise (ImportError "You must install matplotlib to plot metric.")) ;;
   do eval_results <-
     lift (match booster with
           | HLGBMModel m => Ok (evals_result_ m)
           | HDict d => Ok d
           | _ => Raise (TypeError "booster must be dict or LGBMModel.")
           end);
   let num_data := length eval_results in
   when (num_data =? 0)%nat
     (raise (ValueError "eval results cannot be empty.")) ;;
   do ax <- get_axes ax figsize;
   do dataset_names <-
     lift (match dataset_names with
           | None => Ok (map fst eval_results)
           | Some (NamesSeq (n :: names)) => Ok (n :: names)
           | Some _ =>
               Raise (ValueError
                 "dataset_names should be iterable and cannot be empty")
           end);
   do (name, dataset_names) <-
     lift (match dataset_names with
           | name :: rest => Ok (name, rest)
           | [] => Raise StopIteration
           end);
   do metrics_for_one <- lift (dict_getitem eval_results name);
   let num_metric := length metrics_for_one in
   do (metric, results, eval_results) <-
     match metric with
     | None =>
         (when (1 <? num_metric)%nat
            (emit (Warn "UserWarning"
               "more than one metric available, picking one to plot.")) ;;
          do (item, metrics_for_one) <- lift (popitem metrics_for_one);
          ret (fst item, snd item, dict_set eval_results name metrics_for_one))
     | Some metric =>
         (do results <-
            lift (match dict_get metrics_for_one metric with
                  | Some results => Ok results
                  | None => Raise (KeyError "No given metric in eval results.")
                  end);
          ret (metric, results, eval_results))
     end;
   let num_iteration := length results in
   do max_result <- lift (py_max results);
   do min_result <- lift (py_min results);
   let x_ := range_ num_iteration in
   emit (Plot x_ results name) ;;
   do (max_result, min_result) <-
     plot_rest eval_results metric x_ dataset_names max_result min_result;
   emit Legend ;;
   set_lim SetXlim xlim "xlim"
     (Ok (OTuple [0%Q; inject_Z (Z.of_nat num_iteration)])) ;;
   set_lim SetYlim ylim "ylim"
     (let range_result := (max_result - min_result)%Q in
      Ok (OTuple [(min_result - range_result * 0.2)%Q;
                  (max_result + range_result * 0.2)%Q])) ;;
   let ylabel := match ylabel with
                 | Some y => if String.eqb y "auto" then Some metric else Some y
                 | None => None
                 end in
   set_opt SetTitle title ;;
   set_opt SetXlabel xlabel ;;
   set_opt SetYlabel ylabel ;;
   emit (Grid grid) ;;
   ret ax)%M.

(** *** create_tree_digraph and plot_tree *)

(** [locals().get(k)] in a frame with the given named values besides the
    loop variables [param_name] and [param]; a name bound to None and a
    name that is not bound both give None. *)
Definition locals_get (frame : list (string * option pyobj))
    (param_name : string) (param : option pyobj) (k : string) : option pyobj :=
  match dict_get (frame ++ [("param_name", Some (OStr param_name));
                            ("param", param)]) k with
  | Some v => v
  | None => None
  end.

Definition deprecation_message (param_name : string) : string :=
  param_name +:+ " parameter is deprecated and will be removed in 2.4 version."
  +:+ String (ascii_of_nat 10) "Please use **kwargs to pass "
  +:+ drop4 param_name +:+ " parameter.".

(** The loop over the names of the deprecated parameters; it returns the
    last [param] with the updated [kwargs]. *)
Fixpoint fold_old_params (frame : list (string * option pyobj))
    (names : list string) (param : option pyobj) (kwargs : gmap string pyobj)
    : M (option pyobj * gmap string pyobj) :=
  match names with
  | [] => ret (param, kwargs)
  | param_name :: names' =>
      let param := locals_get frame param_name param param_name in
      match param with
      | Some v =>
          (emit (Warn "LGBMDeprecationWarning" (deprecation_message param_name)) ;;
           let kwargs := match kwargs !! drop4 param_name with
                         | None => <[drop4 param_name := v]> kwargs
                         | Some _ => kwargs
                         end in
           fold_old_params frame names' param kwargs)%M
      | None => fold_old_params frame names' param kwargs
      end
  end.

(** The local names of [create_tree_digraph] and their values. *)
Definition create_tree_digraph_frame (tree_index : Z)
    (show_info : option (list string)) (precision : option Z)
    (old : old_params) : list (string * option pyobj) :=
  [ ("booster", Some OOther);
    ("tree_index", Some (OInt tree_index));
    ("show_info", match show_info with Some _ => Some OOther | None => None end);
    ("precision", match precision with Some p => Some (OInt p) | None => None end);
    ("old_name", old_name old);
    ("old_comment", old_comment old);
    ("old_filename", old_filename old);
    ("old_directory", old_directory old);
    ("old_format", old_format old);
    ("old_engine", old_engine old);
    ("old_encoding", old_encoding old);
    ("old_graph_attr", old_graph_attr old);
    ("old_node_attr", old_node_attr old);
    ("old_edge_attr", old_edge_attr old);
    ("old_body", old_body old);
    ("old_strict", Some (OBool (old_strict old)));
    ("kwargs", Some OOther) ].

Definition create_tree_digraph (booster : handle) (tree_index : Z)
    (show_info : option (list string)) (precision : option Z)
    (old : old_params) (kwargs : gmap string pyobj) : M Digraph :=
  (do booster <- lift (booster_of booster);
   let frame := create_tree_digraph_frame tree_index show_info precision old in
   do (param, kwargs) <-
     fold_old_params frame
       ["old_name"; "old_comment"; "old_filename"; "old_directory";
        "old_format"; "old_engine"; "old_encoding"; "old_graph_attr";
        "old_node_attr"; "old_edge_attr"; "old_body"] None kwargs;
   do kwargs <-
     (if truthy (locals_get frame "old_body" param "strict")
      then
        emit (Warn "LGBMDeprecationWarning"
                ("old_strict parameter is deprecated and will be removed in 2.4 version."
                 +:+ String (ascii_of_nat 10)
                       "Please use **kwargs to pass strict parameter.")) ;;
        ret (match kwargs !! "strict" with
             | None => <["strict" := OBool true]> kwargs
             | Some _ => kwargs
             end)
      else ret kwargs);
   emit DumpModel ;;
   let model := dump_model booster in
   let tree_infos := tree_info model in
   let feature_names := feature_names model in
   do tree_info <-
     (if tree_index <? Z.of_nat (length tree_infos)
      then lift (getitem tree_infos tree_index)
      else raise (IndexError "tree_index is out of range."));
   let show_info := match show_info with Some l => l | None => [] end in
   lift (_to_graphviz tree_info show_info feature_names precision kwargs))%M.

(** The local names of [plot_tree] and their values. *)
Definition plot_tree_frame (ax : option Axes) (tree_index : Z)
    (figsize : option pyobj)
    (old_graph_attr old_node_attr old_edge_attr : option pyobj)
    (show_info : option (list string)) (precision : option Z)
    : list (string * option pyobj) :=
  [ ("booster", Some OOther);
    ("ax", match ax with Some _ => Some OOther | None => None end);
    ("tree_index", Some (OInt tree_index));
    ("figsize", figsize);
    ("old_graph_attr", old_graph_attr);
    ("old_node_attr", old_node_attr);
    ("old_edge_attr", old_edge_attr);
    ("show_info", match show_info with Some _ => Some OOther | None => None end);
    ("precision", match precision with Some p => Some (OInt p) | None => None end);
    ("kwargs", Some OOther);
    ("plt", Some OOther);
    ("image", Some OOther) ].

(** The call of lines 550-551 gives [booster], [tree_index], [show_info]
    and [precision] by keyword and then the entries of [kwargs] as further
    keyword arguments. An entry named after one of the four is a second
    value for it, a TypeError (the four are parameters of [plot_tree] too,
    so a call of [plot_tree] leaves no such entry). An entry named after a
    deprecated parameter
    of [create_tree_digraph] is the value of that parameter ([old_strict]
    is kept as its truth value; [create_tree_digraph] never reads it). The
    entries left are the [kwargs] of [create_tree_digraph]. *)
Definition written_keywords : list string :=
  ["booster"; "tree_index"; "show_info"; "precision"].

Definition old_keywords : list string :=
  ["old_name"; "old_comment"; "old_filename"; "old_directory";
   "old_format"; "old_engine"; "old_encoding"; "old_graph_attr";
   "old_node_attr"; "old_edge_attr"; "old_body"; "old_strict"].

Definition keyword_old_params (kwargs : gmap string pyobj) : old_params :=
  {| old_name := kwargs !! "old_name";
     old_comment := kwargs !! "old_comment";
     old_filename := kwargs !! "old_filename";
     old_directory := kwargs !! "old_directory";
     old_format := kwargs !! "old_format";
     old_engine := kwargs !! "old_engine";
     old_encoding := kwargs !! "old_encoding";
     old_graph_attr := kwargs !! "old_graph_attr";
     old_node_attr := kwargs !! "old_node_attr";
     old_edge_attr := kwargs !! "old_edge_attr";
     old_body := kwargs !! "old_body";
     old_strict := truthy (kwargs !! "old_strict") |}.

Definition keyword_rest (kwargs : gmap string pyobj) : gmap string pyobj :=
  foldr delete kwargs old_keywords.

Definition bind_keywords (kwargs : gmap string pyobj)
    : res (old_params * gmap string pyobj) :=
  match List.find (fun k => bool_decide (is_Some (kwargs !! k)))
          written_keywords with
  | Some k =>
      Raise (TypeError
        ("create_tree_digraph() got multiple values for keyword argument '"
         +:+ k +:+ "'"))
  | None => Ok (keyword_old_params kwargs, keyword_rest kwargs)
  end.

Definition plot_tree (booster : handle) (ax : option Axes) (tree_index : Z)
    (figsize : option pyobj)
    (old_graph_attr old_node_attr old_edge_attr : option pyobj)
    (show_info : option (list string)) (precision : option Z)
    (kwargs : gmap string pyobj) : M Axes :=
  (when (negb MATPLOTLIB_INSTALLED)
     (raise (ImportError "You must install matplotlib to plot tree.")) ;;
   let frame := plot_tree_frame ax tree_index figsize old_graph_attr
                  old_node_attr old_edge_attr show_info precision in
   do (param, kwargs) <-
     fold_old_params frame
       ["old_graph_attr"; "old_node_attr"; "old_edge_attr"] None kwargs;
   do ax <- get_axes ax figsize;
   do (old, kwargs) <- lift (bind_keywords kwargs);
   do graph <- create_tree_digraph booster tree_index show_info precision
                 old kwargs;
   emit (Pipe graph "png") ;;
   emit (Imshow graph) ;;
   emit AxisOff ;;
   ret ax)%M.

Definition is_subplots (c : call) : bool :=
  match c with Subplots _ => true | _ => false end.

(** *** Reference functions for the deprecated parameters *)

(** The value that a frame gives to a name; None when the name is bound
    to None or not bound. *)
Definition frame_get (frame : list (string * option pyobj)) (k : string)
    : option pyobj :=
  match dict_get frame k with
  | Some v => v
  | None => None
  end.

(** The value of the first deprecated parameter, among [names], that is
    set and whose name without [old_] is [k]. *)
Fixpoint deprecated_value (frame : list (string * option pyobj))
    (names : list string) (k : string) : option pyobj :=
  match names with
  | [] => None
  | name :: names' =>
      match frame_get frame name with
      | Some v => if String.eqb (drop4 name) k then Some v
                  else deprecated_value frame names' k
      | None => deprecated_value frame names' k
      end
  end.

(** One warning for each deprecated parameter, among [names], that is
    set. *)
Definition deprecation_warnings (frame : list (string * option pyobj))
    (names : list string) : list call :=
  flat_map (fun name =>
              match frame_get frame name with
              | Some _ => [Warn "LGBMDeprecationWarning"
                             (deprecation_message name)]
              | None => []
              end) names.

(** The names that the loop of [create_tree_digraph] goes through, and
    those of [plot_tree]. *)
Definition digraph_old_names : list string :=
  ["old_name"; "old_comment"; "old_filename"; "old_directory";
   "old_format"; "old_engine"; "old_encoding"; "old_graph_attr";
   "old_node_attr"; "old_edge_attr"; "old_body"].


(** ** Properties of the tree walker *)

Lemma res_bind_ok {A B : Type} (m : res A) (k : A -> res B) (b : B) :
  res_bind m k = Ok b -> exists a, m = Ok a /\ k a = Ok b.
Proof.
  destruct m as [a|e]; simpl; intros H; [eauto | discriminate].
Qed.

Lemma leaf_nodes_internal_nodes (t : tree) :
  leaf_nodes t = S (internal_nodes t).
Proof.
  induction t as [| si sf th dt sg iv ic l IHl r IHr]; simpl; lia.
Qed.


Lemma decision_labels_valid (dt : string) :
  valid_decision dt = true ->
  decision_labels dt = Ok ("<=", ">") /\ dt = "<="
  \/ decision_labels dt = Ok ("is", "isn't") /\ dt = "==".
Proof.
  unfold valid_decision, decision_labels.
  destruct (String.eqb dt "<=") eqn:E1.
  - apply String.eqb_eq in E1. auto.
  - destruct (String.eqb dt "==") eqn:E2; simpl; [| discriminate].
    apply String.eqb_eq in E2. auto.
Qed.



Lemma counts_app (ss1 ss2 : list stmt) (n1 e1 n2 e2 : nat) :
  counts ss1 n1 e1 -> counts ss2 n2 e2 ->
  counts (ss1 ++ ss2) (n1 + n2) (e1 + e2).
Proof.
  unfold counts. intros [H1 H2] [H3 H4].
  rewrite !List.filter_app, !length_app. lia.
Qed.

Lemma counts_eq (ss : list stmt) (n e n' e' : nat) :
  counts ss n e -> n = n' -> e = e' -> counts ss n' e'.
Proof. intros H <- <-. exact H. Qed.

Lemma edge_to_parent_body (g : Digraph) (parent : option string)
    (name : string) (decision : option string) :
  body (edge_to_parent g parent name decision)
  = body g ++ match parent with
              | Some p => [Edge p name decision]
              | None => []
              end.
Proof.
  destruct parent; simpl; [reflexivity | now rewrite app_nil_r].
Qed.

Section WalkerFacts.

Variable show_info : list string.
Variable names : option (list string).
Variable precision : option Z.

Local Abbreviation add := (add show_info names precision).

(** [add] only appends to the graph: one node statement per node of the
    tree, one edge statement per node below the root of the call, and one
    more, from the parent, when there is a parent. *)
Lemma add_appends (t : tree) :
  forall parent decision g g',
    add t parent decision g = Ok g' ->
    exists ss,
      body g' = body g ++ ss
      /\ graph_kwargs g' = graph_kwargs g
      /\ counts ss (internal_nodes t + leaf_nodes t)
           (internal_nodes t + leaf_nodes t - 1
            + match parent with Some _ => 1 | None => 0 end)
      /\ (forall p, parent = Some p -> In (Edge p (node_name t) decision) ss)
      /\ (forall tail head lab, In (Edge tail head lab) ss ->
            parent = Some tail /\ head = node_name t \/ child_edge t tail head).
Proof.
  induction t as [li lv lc | si sf th dt sg iv ic l IHl r IHr];
    intros parent decision g g' H.
  - simpl in H. injection H as <-.
    rewrite edge_to_parent_body. simpl. rewrite <- app_assoc.
    eexists. split; [reflexivity |].
    split; [now destruct parent |].
    split; [destruct parent; split; reflexivity |].
    split.
    + intros p ->. simpl. auto.
    + intros tail head lab [Hin | Hin]; [discriminate |].
      destruct parent as [p|]; [| destruct Hin].
      destruct Hin as [Hin | []]. injection Hin as -> <- _. auto.
  - simpl in H.
    apply res_bind_ok in H as (label & _ & H).
    apply res_bind_ok in H as ([l_dec r_dec] & _ & H).
    apply res_bind_ok in H as (g1 & Hl & H).
    apply res_bind_ok in H as (g2 & Hr & H).
    injection H as <-.
    apply IHl in Hl as (ssl & Hbl & Hkl & Hcl & _ & Hel).
    apply IHr in Hr as (ssr & Hbr & Hkr & Hcr & _ & Her).
    rewrite edge_to_parent_body, Hbr, Hbl. simpl body.
    rewrite <- !app_assoc.
    eexists. split; [reflexivity |].
    split; [destruct parent; simpl; rewrite Hkr, Hkl; reflexivity |].
    split.
    + pose proof (leaf_nodes_internal_nodes l) as El.
      pose proof (leaf_nodes_internal_nodes r) as Er.
      destruct parent; (eapply counts_eq;
        [ apply (counts_app [_]); [split; reflexivity |];
          apply counts_app; [exact Hcl |];
          apply counts_app; [exact Hcr |];
          split; reflexivity
        | simpl; lia
        | simpl; lia ]).
    + split.
      * intros p ->. simpl.
        rewrite !in_app_iff. right. right. simpl. auto.
      * intros tail head lab Hin. simpl in Hin.
        destruct Hin as [Hin | Hin]; [discriminate |].
        rewrite !in_app_iff in Hin.
        destruct Hin as [Hin | [Hin | Hin]].
        -- right. apply Hel in Hin as [[Ht ->] | Hc].
           ++ injection Ht as <-.
              exists si, sf, th, dt, sg, iv, ic, l, r.
              split; [constructor | auto].
           ++ destruct Hc as (si' & sf' & th' & dt' & sg' & iv' & ic' & l' & r'
                              & Hs & Ht & Hh).
              exists si', sf', th', dt', sg', iv', ic', l', r'.
              split; [now apply subtree_left | auto].
        -- right. apply Her in Hin as [[Ht ->] | Hc].
           ++ injection Ht as <-.
              exists si, sf, th, dt, sg, iv, ic, l, r.
              split; [constructor | auto].
           ++ destruct Hc as (si' & sf' & th' & dt' & sg' & iv' & ic' & l' & r'
                              & Hs & Ht & Hh).
              exists si', sf', th', dt', sg', iv', ic', l', r'.
              split; [now apply subtree_right | auto].
        -- destruct parent as [p|]; [| destruct Hin].
           destruct Hin as [Hin | []]. injection Hin as -> <- _. auto.
Qed.

(** On a tree whose decision types exist and whose split features have a
    name, [add] returns a graph. *)
Lemma add_total (t : tree) :
  well_formed names t = true ->
  forall parent decision g, exists g', add t parent decision g = Ok g'.
Proof.
  unfold well_formed. rewrite andb_true_iff. intros [Hf Hd].
  induction t as [li lv lc | si sf th dt sg iv ic l IHl r IHr];
    intros parent decision g.
  - simpl. eauto.
  - simpl in Hf, Hd. rewrite !andb_true_iff in Hf, Hd.
    destruct Hf as [[Hsf Hfl] Hfr]. destruct Hd as [[Hdt Hdl] Hdr].
    simpl.
    assert (exists label, split_label show_info names precision sf th sg iv ic
                          = Ok label) as [label ->].
    { unfold split_label. destruct names as [ns|]; simpl; [| eauto].
      unfold feature_known in Hsf. rewrite andb_true_iff in Hsf.
      destruct Hsf as [Hlo Hhi].
      apply Z.leb_le in Hlo. apply Z.ltb_lt in Hhi.
      unfold getitem.
      destruct (sf <? 0) eqn:Eneg.
      - apply Z.ltb_lt in Eneg.
        replace ((0 <=? sf + Z.of_nat (length ns))
                 && (sf + Z.of_nat (length ns) <? Z.of_nat (length ns)))
          with true by (symmetry; apply andb_true_iff; split;
                        [apply Z.leb_le | apply Z.ltb_lt]; lia).
        destruct (ns !! Z.to_nat (sf + Z.of_nat (length ns))) eqn:E;
          simpl; eauto.
        apply lookup_ge_None in E. lia.
      - apply Z.ltb_ge in Eneg.
        replace ((0 <=? sf) && (sf <? Z.of_nat (length ns)))
          with true by (symmetry; apply andb_true_iff; split;
                        [apply Z.leb_le | apply Z.ltb_lt]; lia).
        destruct (ns !! Z.to_nat sf) eqn:E; simpl; eauto.
        apply lookup_ge_None in E. lia. }
    simpl.
    destruct (decision_labels_valid dt Hdt) as [[-> _] | [-> _]]; simpl.
    + destruct (IHl Hfl Hdl (Some ("split" +:+ pretty si)) (Some "<=")
                  (graph_node g ("split" +:+ pretty si) label)) as [g1 E1].
      fold add. rewrite E1. simpl.
      destruct (IHr Hfr Hdr (Some ("split" +:+ pretty si)) (Some ">") g1)
        as [g2 E2].
      rewrite E2. simpl. eauto.
    + destruct (IHl Hfl Hdl (Some ("split" +:+ pretty si)) (Some "is")
                  (graph_node g ("split" +:+ pretty si) label)) as [g1 E1].
      fold add. rewrite E1. simpl.
      destruct (IHr Hfr Hdr (Some ("split" +:+ pretty si)) (Some "isn't") g1)
        as [g2 E2].
      rewrite E2. simpl. eauto.
Qed.




End WalkerFacts.


(** C1. For a tree description with I internal nodes and L leaves, whose
    decision types exist and whose split features have a name, the graph
    that [_to_graphviz] builds has I + L node statements and I * 2 edge
    statements, and each edge goes from an internal node to one of its two
    children: no edge leaves a leaf. *)
Theorem to_graphviz_node_and_edge_counts (tree_info : tree_info_t)
    (show_info : list string) (feature_names : option (list string))
    (precision : option Z) (kwargs : gmap string pyobj) :
  GRAPHVIZ_INSTALLED = true ->
  well_formed feature_names (tree_structure tree_info) = true ->
  exists graph,
    _to_graphviz tree_info show_info feature_names precision kwargs = Ok graph
    /\ node_count graph
       = (internal_nodes (tree_structure tree_info)
          + leaf_nodes (tree_structure tree_info))%nat
    /\ edge_count graph = (internal_nodes (tree_structure tree_info) * 2)%nat
    /\ forall tail head label,
         In (Edge tail head label) (body graph) ->
         child_edge (tree_structure tree_info) tail head.
Proof.
  intros Hinst Hwf. unfold _to_graphviz. rewrite Hinst.
  destruct (add_total show_info feature_names precision _ Hwf None None
              (new_Digraph kwargs)) as [g Hg].
  exists g. split; [exact Hg |].
  apply add_appends in Hg as (ss & Hb & _ & [Hn He] & _ & Hedges).
  simpl in Hb. subst ss.
  pose proof (leaf_nodes_internal_nodes (tree_structure tree_info)) as E.
  unfold node_count, edge_count.
  split; [exact Hn |]. split; [lia |].
  intros tail head label Hin.
  destruct (Hedges _ _ _ Hin) as [[Hp _] | Hc]; [discriminate | exact Hc].
Qed.


(** ** Computations with effects *)

Lemma bind_ok {A B : Type} (m : M A) (k : A -> M B) tr tr' (b : B) :
  bind m k tr = (tr', Ok b) ->
  exists a tr1, m tr = (tr1, Ok a) /\ k a tr1 = (tr', Ok b).
Proof.
  unfold bind. destruct (m tr) as [tr1 [a|e]]; intros H;
    [eauto | discriminate].
Qed.

Lemma lift_ok {A : Type} (r : res A) tr tr' (a : A) :
  lift r tr = (tr', Ok a) -> r = Ok a /\ tr' = tr.
Proof. unfold lift. intros H. injection H as <- ->. auto. Qed.

Lemma when_ok (b : bool) (e : exn) tr tr' u :
  when b (raise e) tr = (tr', Ok u) -> b = false /\ tr' = tr.
Proof.
  destruct b; simpl; unfold raise, ret; intros H;
    [discriminate | injection H as <-; auto].
Qed.

Lemma appends_ret {A : Type} (a : A) : appends (ret a).
Proof. intros tr. exists []. simpl. now rewrite app_nil_r. Qed.

Lemma appends_raise {A : Type} (e : exn) : appends (@raise A e).
Proof. intros tr. exists []. simpl. now rewrite app_nil_r. Qed.

Lemma appends_lift {A : Type} (r : res A) : appends (lift r).
Proof. intros tr. exists []. simpl. now rewrite app_nil_r. Qed.

Lemma appends_emit (c : call) : appends (emit c).
Proof. intros tr. exists [c]. reflexivity. Qed.

Lemma appends_bind {A B : Type} (m : M A) (k : A -> M B) :
  appends m -> (forall a, appends (k a)) -> appends (bind m k).
Proof.
  intros Hm Hk tr. unfold bind.
  destruct (Hm tr) as [ss Hss].
  destruct (m tr) as [tr1 [a|e]]; simpl in *; subst tr1.
  - destruct (Hk a (tr ++ ss)) as [ss' Hss'].
    exists (ss ++ ss'). now rewrite Hss', app_assoc.
  - eauto.
Qed.

Lemma appends_when (b : bool) (m : M unit) : appends m -> appends (when b m).
Proof. destruct b; simpl; [auto | intros _; apply appends_ret]. Qed.

Lemma appends_for_each {A : Type} (l : list A) (body : A -> M unit) :
  (forall x, appends (body x)) -> appends (for_each l body).
Proof.
  intros Hb. induction l as [|x l IH]; simpl.
  - apply appends_ret.
  - apply appends_bind; auto.
Qed.

Lemma appends_get_axes (ax : option Axes) (figsize : option pyobj) :
  appends (get_axes ax figsize).
Proof.
  destruct ax as [a|]; simpl; [apply appends_ret |].
  apply appends_bind; [destruct figsize; [apply appends_lift | apply appends_ret] |].
  intros _. apply appends_bind; [apply appends_emit |].
  intros _. apply appends_ret.
Qed.

Lemma appends_set_lim setter lim name default :
  appends (set_lim setter lim name default).
Proof.
  unfold set_lim. apply appends_bind.
  - destruct lim; [| apply appends_lift].
    apply appends_bind; [apply appends_lift | intros _; apply appends_ret].
  - intros l. apply appends_emit.
Qed.

Lemma appends_set_opt setter text : appends (set_opt setter text).
Proof. destruct text; simpl; [apply appends_emit | apply appends_ret]. Qed.

(** A call that is in the trace stays in it. *)
Lemma appends_keeps {A : Type} (m : M A) (c : call) tr tr' (r : res A) :
  appends m -> m tr = (tr', r) -> In c tr -> In c tr'.
Proof.
  intros Hm H Hin. destruct (Hm tr) as [ss Hss].
  rewrite H in Hss. simpl in Hss. subst tr'. apply in_or_app. auto.
Qed.

Ltac appends_tac :=
  repeat first
    [ apply appends_ret | apply appends_raise | apply appends_lift
    | apply appends_emit | apply appends_get_axes | apply appends_set_lim
    | apply appends_set_opt
    | apply appends_when | apply appends_for_each
    | apply appends_bind | intros [? ?] | intro ].

(** ** Sorting by score *)

Lemma insert_by_score_perm {A : Type} (x : A * Q) (l : list (A * Q)) :
  Permutation (insert_by_score x l) (x :: l).
Proof.
  induction l as [|y l IH]; simpl; [reflexivity |].
  destruct (Qle_bool (snd x) (snd y)); [reflexivity |].
  rewrite IH. apply perm_swap.
Qed.

Lemma sorted_by_score_perm {A : Type} (l : list (A * Q)) :
  Permutation (sorted_by_score l) l.
Proof.
  induction l as [|x l IH]; simpl; [reflexivity |].
  rewrite insert_by_score_perm. now constructor.
Qed.

Lemma insert_by_score_sorted {A : Type} (x : A * Q) (l : list (A * Q)) :
  StronglySorted score_le l -> StronglySorted score_le (insert_by_score x l).
Proof.
  induction 1 as [|y l Hs IH Hy]; simpl.
  - repeat constructor.
  - destruct (Qle_bool (snd x) (snd y)) eqn:E.
    + apply Qle_bool_iff in E.
      constructor; [constructor; assumption |].
      constructor; [exact E |].
      rewrite Forall_forall in Hy. apply Forall_forall.
      intros z Hz. apply Hy in Hz. unfold score_le in *.
      eapply Qle_trans; eassumption.
    + constructor; [exact IH |].
      assert (snd y <= snd x)%Q as Hyx.
      { destruct (Qlt_le_dec (snd y) (snd x)) as [Hlt | Hle].
        - now apply Qlt_le_weak.
        - apply Qle_bool_iff in Hle. congruence. }
      apply Forall_forall. intros z Hz.
      apply list_elem_of_In in Hz.
      apply (Permutation_in _ (insert_by_score_perm x l)) in Hz.
      destruct Hz as [<- | Hz]; [exact Hyx |].
      rewrite Forall_forall in Hy. apply Hy. now apply list_elem_of_In.
Qed.

Lemma sorted_by_score_sorted {A : Type} (l : list (A * Q)) :
  StronglySorted score_le (sorted_by_score l).
Proof.
  induction l as [|x l IH]; simpl;
    [constructor | now apply insert_by_score_sorted].
Qed.

Lemma filter_sorted {A : Type} (f : A * Q -> bool) (l : list (A * Q)) :
  StronglySorted score_le l -> StronglySorted score_le (List.filter f l).
Proof.
  induction 1 as [|y l Hs IH Hy]; simpl; [constructor |].
  destruct (f y); [| exact IH].
  constructor; [exact IH |].
  apply Forall_forall. intros z Hz. apply list_elem_of_In in Hz.
  apply filter_In in Hz as [Hz _].
  rewrite Forall_forall in Hy. apply Hy. now apply list_elem_of_In.
Qed.

Lemma sorted_app {A : Type} (l1 l2 : list (A * Q)) :
  StronglySorted score_le (l1 ++ l2) ->
  StronglySorted score_le l2
  /\ forall x y, In x l1 -> In y l2 -> score_le x y.
Proof.
  induction l1 as [|z l1 IH]; simpl; intros H.
  - split; [exact H | intros x y []].
  - inversion H as [|? ? Hs Hz]; subst.
    destruct (IH Hs) as [H2 H12]. split; [exact H2 |].
    intros x y [<- | Hx] Hy; [| auto].
    rewrite Forall_forall in Hz. apply Hz. apply list_elem_of_In.
    apply in_or_app. auto.
Qed.

Lemma last_items_length {A : Type} (n : Z) (l : list A) :
  0 < n ->
  length (last_items n l) = Nat.min (Z.to_nat n) (length l).
Proof.
  intros Hn. unfold last_items. rewrite length_drop. lia.
Qed.

Lemma last_items_split {A : Type} (n : Z) (l : list A) :
  l = take (length l - Z.to_nat n)%nat l ++ last_items n l.
Proof. unfold last_items. now rewrite take_drop. Qed.

Lemma emit_ok (c : call) tr tr' u :
  emit c tr = (tr', Ok u) -> tr' = tr ++ [c].
Proof. unfold emit. intros H. now injection H as <-. Qed.

Lemma unzip_pairs_ok {A B : Type} (tuples : list (A * B)) labels values :
  unzip_pairs tuples = Ok (labels, values) ->
  labels = map fst tuples /\ values = map snd tuples /\ tuples <> [].
Proof.
  destruct tuples; simpl; intros H; [discriminate |].
  injection H as <- <-. repeat split. discriminate.
Qed.

Ltac peel H a tr1 H1 :=
  apply bind_ok in H as (a & tr1 & H1 & H); cbv beta zeta in H.

(** ** plot_importance *)

(** C3. When [plot_importance] returns with a positive [max_num_features]
    N: the pairs were sorted ascending by score (a stable rearrangement of
    the input pairs), the pairs without a positive score were removed when
    [ignore_zero] is set, and the pairs drawn are the last N of what is
    left. So the number of bars is the minimum of N and the number of
    pairs left, and no pair that was cut off has a higher score than a
    pair that is drawn. *)
Theorem plot_importance_truncation (booster : handle) (ax : option Axes)
    (height : Q) (xlim ylim : option pyobj) (title xlabel ylabel : option string)
    (importance_type : string) (N : Z) (ignore_zero : bool)
    (figsize : option pyobj) (grid : bool) (precision : option Z)
    (kwargs : gmap string pyobj) (tr0 tr : list call) (ax' : Axes) :
  0 < N ->
  plot_importance booster ax height xlim ylim title xlabel ylabel
    importance_type (Some N) ignore_zero figsize grid precision kwargs tr0
  = (tr, Ok ax') ->
  exists b dropped kept,
    booster_of booster = Ok b
    /\ let pairs := zip_ (feature_name b) (feature_importance b importance_type) in
       let candidates :=
         if ignore_zero
         then List.filter (fun x => Qltb 0 (snd x)) (sorted_by_score pairs)
         else sorted_by_score pairs in
       Permutation (sorted_by_score pairs) pairs
       /\ StronglySorted score_le (sorted_by_score pairs)
       /\ candidates = dropped ++ kept
       /\ kept = last_items N candidates
       /\ length kept = Nat.min (Z.to_nat N) (length candidates)
       /\ (forall d k, In d dropped -> In k kept -> score_le d k)
       /\ In (Barh (range_ (length kept)) (map snd kept) height kwargs) tr
       /\ In (SetYticklabels (map fst kept)) tr.
Proof.
  intros HN H. unfold plot_importance in H.
  peel H u0 tr1 H1. apply when_ok in H1 as [_ ->].
  peel H b tr1 H1. apply lift_ok in H1 as [Hb ->].
  peel H u1 tr1 H1. apply emit_ok in H1 as ->.
  peel H u2 tr2 H1. apply emit_ok in H1 as ->.
  peel H u3 tr3 H1. apply when_ok in H1 as [_ ->].
  peel H lv tr3 H1. destruct lv as [labels values].
  apply lift_ok in H1 as [Hunzip ->].
  apply unzip_pairs_ok in Hunzip as (-> & -> & _).
  peel H ax1 tr3 Hax.
  peel H u4 tr4 H1. apply emit_ok in H1 as ->.
  peel H u5 tr5 Htexts.
  peel H u6 tr6 H1. apply emit_ok in H1 as ->.
  peel H u7 tr7 H1. apply emit_ok in H1 as ->.
  set (pairs := zip_ (feature_name b) (feature_importance b importance_type))
    in *.
  set (kept := select_tuples (feature_name b)
                 (feature_importance b importance_type) ignore_zero (Some N))
    in *.
  set (candidates :=
         if ignore_zero
         then List.filter (fun x => Qltb 0 (snd x)) (sorted_by_score pairs)
         else sorted_by_score pairs).
  assert (kept = last_items N candidates) as Hkept.
  { unfold kept, select_tuples. fold pairs.
    replace (0 <? N) with true by (symmetry; apply Z.ltb_lt; exact HN).
    reflexivity. }
  assert (StronglySorted score_le candidates) as Hsorted.
  { unfold candidates. destruct ignore_zero;
      [apply filter_sorted |]; apply sorted_by_score_sorted. }
  exists b, (take (length candidates - Z.to_nat N)%nat candidates), kept.
  split; [exact Hb |].
  split; [apply sorted_by_score_perm |].
  split; [apply sorted_by_score_sorted |].
  split; [rewrite Hkept; apply last_items_split |].
  split; [exact Hkept |].
  split; [rewrite Hkept; now apply last_items_length |].
  split.
  { rewrite (last_items_split N candidates) in Hsorted.
    apply sorted_app in Hsorted as [_ Hle]. rewrite Hkept. exact Hle. }
  rewrite !length_map in *.
  split.
  - eapply appends_keeps; [| exact H |].
    + appends_tac.
    + apply in_or_app. left. apply in_or_app. left.
      eapply (appends_keeps _ _ _ _ _ _ Htexts).
      apply in_or_app. right. left. reflexivity.
  - eapply appends_keeps; [| exact H |].
    + appends_tac.
    + apply in_or_app. right. left. reflexivity.
  Unshelve.
  appends_tac.
Qed.

Lemma in_zip_snd {A B : Type} (l1 : list A) (l2 : list B) (x : A * B) :
  In x (zip_ l1 l2) -> In (snd x) l2.
Proof.
  revert l2. induction l1 as [|a l1 IH]; intros [|b l2]; simpl; try tauto.
  intros [<- | H]; simpl; auto.
Qed.

Lemma filter_none {A : Type} (f : A -> bool) (l : list A) :
  (forall x, In x l -> f x = false) -> List.filter f l = [].
Proof.
  induction l as [|x l IH]; simpl; intros H; [reflexivity |].
  rewrite (H x) by auto. apply IH. auto.
Qed.

Lemma select_tuples_all_zero (names : list string) (importance : list Q)
    (max_num_features : option Z) :
  Forall (fun x => (x == 0)%Q) importance ->
  select_tuples names importance true max_num_features = [].
Proof.
  intros Hz. unfold select_tuples.
  rewrite filter_none.
  - destruct max_num_features as [n|]; [| reflexivity].
    destruct (0 <? n); reflexivity.
  - intros x Hx.
    apply (Permutation_in _ (sorted_by_score_perm _)) in Hx.
    apply in_zip_snd in Hx.
    rewrite Forall_forall in Hz. apply list_elem_of_In, Hz in Hx.
    unfold Qltb. apply negb_false_iff, Qle_bool_iff.
    rewrite Hx. apply Qle_refl.
Qed.

(** C10. For a booster whose importance vector is not empty and holds only
    zero scores, [plot_importance] with [ignore_zero] set raises the
    ValueError of the unpacking of the empty list of pairs, not the error
    for an empty importance vector, and by then it has only read the
    importances and the names: nothing is drawn. *)
Theorem plot_importance_all_zero_scores (booster : handle) (b : Booster)
    (ax : option Axes) (height : Q) (xlim ylim : option pyobj)
    (title xlabel ylabel : option string) (importance_type : string)
    (max_num_features : option Z) (figsize : option pyobj) (grid : bool)
    (precision : option Z) (kwargs : gmap string pyobj) (tr0 : list call) :
  MATPLOTLIB_INSTALLED = true ->
  booster_of booster = Ok b ->
  feature_importance b importance_type <> [] ->
  Forall (fun x => (x == 0)%Q) (feature_importance b importance_type) ->
  plot_importance booster ax height xlim ylim title xlabel ylabel
    importance_type max_num_features true figsize grid precision kwargs tr0
  = (tr0 ++ [FeatureImportance importance_type; FeatureName],
     Raise (ValueError "not enough values to unpack (expected 2, got 0)"))
  /\ existsb is_rendering [FeatureImportance importance_type; FeatureName]
     = false.
Proof.
  intros Hinst Hb Hne Hz. split; [| reflexivity].
  unfold plot_importance, bind, when, lift, emit, raise, ret.
  rewrite Hinst, Hb. simpl.
  rewrite (select_tuples_all_zero _ _ _ Hz).
  destruct (feature_importance b importance_type) as [|x l] eqn:E;
    [contradiction |].
  simpl. rewrite <- app_assoc. reflexivity.
Qed.

(** ** plot_split_value_histogram *)

Lemma getitem_ok {A : Type} (l : list A) (i : Z) (x : A) :
  0 <= i -> getitem l i = Ok x -> l !! Z.to_nat i = Some x.
Proof.
  intros Hi. unfold getitem.
  replace (i <? 0) with false by (symmetry; apply Z.ltb_ge; exact Hi).
  destruct ((0 <=? i) && (i <? Z.of_nat (length l))); [| discriminate].
  destruct (l !! Z.to_nat i); [| discriminate].
  intros H. now injection H as <-.
Qed.

Lemma np_getitem_ok {A : Type} (l : list A) (i : Z) (x : A) :
  0 <= i -> np_getitem l i = Ok x -> l !! Z.to_nat i = Some x.
Proof.
  intros Hi H. apply getitem_ok; [exact Hi |].
  unfold np_getitem in H. destruct (getitem l i); [exact H | discriminate].
Qed.

Lemma centred_of_length (e : list Q) :
  length (centred_of e) = (length e - 1)%nat.
Proof.
  unfold centred_of. rewrite length_map.
  induction e as [|x [|y e] IH]; simpl in *; [reflexivity .. |].
  rewrite IH. lia.
Qed.

Lemma centred_of_lookup (e : list Q) :
  forall (i : nat) (a b : Q),
    e !! i = Some a -> e !! S i = Some b ->
    centred_of e !! i = Some ((a + b) / 2)%Q.
Proof.
  unfold centred_of.
  induction e as [|x e IH]; intros i a b Ha Hb; [discriminate |].
  destruct e as [|y e]; [discriminate |].
  destruct i as [|i].
  - simpl in Ha, Hb. injection Ha as <-. injection Hb as <-. reflexivity.
  - change ((x :: y :: e) !! S i) with ((y :: e) !! i) in Ha.
    change ((x :: y :: e) !! S (S i)) with ((y :: e) !! S i) in Hb.
    specialize (IH i a b Ha Hb).
    change (removelast (x :: y :: e)) with (x :: removelast (y :: e)).
    simpl tail in *. simpl zip_. simpl map.
    change ((?h :: ?t) !! S i) with (t !! i).
    exact IH.
Qed.

(** C7. When [plot_split_value_histogram] returns, it has drawn the bars
    of the histogram [hist] with bin edges [e] that the booster gave: the
    bar of bin [i] is at [(e[i] + e[i+1]) / 2], there is one position per
    bin, and the width of the bars is [width_coef * (e[1] - e[0])]. *)
Theorem plot_split_value_histogram_bars (booster : handle)
    (feature : feature_id) (bins : option bins_arg) (ax : option Axes)
    (width_coef : Q) (xlim ylim : option pyobj)
    (title xlabel ylabel : option string) (figsize : option pyobj)
    (grid : bool) (kwargs : gmap string pyobj) (tr0 tr : list call)
    (ax' : Axes) :
  plot_split_value_histogram booster feature bins ax width_coef xlim ylim
    title xlabel ylabel figsize grid kwargs tr0 = (tr, Ok ax') ->
  exists b e0 e1 centred,
    booster_of booster = Ok b
    /\ let hist := fst (get_split_value_histogram b feature bins) in
       let e := snd (get_split_value_histogram b feature bins) in
       e !! 0%nat = Some e0 /\ e !! 1%nat = Some e1
       /\ In (Bar centred hist (width_coef * (e1 - e0))%Q kwargs) tr
       /\ length centred = (length e - 1)%nat
       /\ forall (i : nat) (a c : Q),
            e !! i = Some a -> e !! S i = Some c ->
            centred !! i = Some ((a + c) / 2)%Q.
Proof.
  intros H. unfold plot_split_value_histogram in H.
  peel H u0 tr1 H1. apply when_ok in H1 as [_ ->].
  peel H b tr1 H1. apply lift_ok in H1 as [Hb ->].
  peel H u1 tr1 H1. apply emit_ok in H1 as ->.
  peel H u2 tr2 H1. apply when_ok in H1 as [_ ->].
  peel H e1 tr2 H1. apply lift_ok in H1 as [He1 ->].
  peel H e0 tr2 H1. apply lift_ok in H1 as [He0 ->].
  peel H ax1 tr2 Hax.
  peel H u3 tr3 H1. apply emit_ok in H1 as ->.
  apply np_getitem_ok in He0; [| lia]. apply np_getitem_ok in He1; [| lia].
  exists b, e0, e1,
    (centred_of (snd (get_split_value_histogram b feature bins))).
  split; [exact Hb |].
  split; [exact He0 |]. split; [exact He1 |].
  split; [| split; [apply centred_of_length | apply centred_of_lookup]].
  eapply appends_keeps; [| exact H |].
  - appends_tac.
  - apply in_or_app. right. left. reflexivity.
Qed.

(** ** plot_metric *)

Lemma Qltb_true (a b : Q) : Qltb a b = true -> (a < b)%Q.
Proof.
  unfold Qltb. intros H. apply negb_true_iff in H.
  destruct (Qlt_le_dec a b) as [Hlt | Hle]; [exact Hlt |].
  apply Qle_bool_iff in Hle. congruence.
Qed.

Lemma Qltb_false (a b : Q) : Qltb a b = false -> (b <= a)%Q.
Proof.
  unfold Qltb. intros H. apply negb_false_iff in H.
  now apply Qle_bool_iff.
Qed.

Lemma max2_spec (a b : Q) :
  (a <= max2 a b)%Q /\ (b <= max2 a b)%Q /\ (max2 a b = a \/ max2 a b = b).
Proof.
  unfold max2. destruct (Qltb a b) eqn:E.
  - apply Qltb_true in E. repeat split; auto using Qlt_le_weak, Qle_refl.
  - apply Qltb_false in E. repeat split; auto using Qle_refl.
Qed.




Lemma fold_max2 (l : list Q) :
  forall x, maximum_of (fold_left max2 l x) (x :: l).
Proof.
  induction l as [|y l IH]; intros x; simpl.
  - split; [now left | intros z [<- | []]; apply Qle_refl].
  - destruct (IH (max2 x y)) as [Hin Hle].
    destruct (max2_spec x y) as (H1 & H2 & H3). split.
    + destruct Hin as [Hin | Hin]; [| simpl; auto].
      rewrite <- Hin. destruct H3 as [-> | ->]; simpl; auto.
    + intros z [<- | [<- | Hz]].
      * eapply Qle_trans; [exact H1 | apply Hle; now left].
      * eapply Qle_trans; [exact H2 | apply Hle; now left].
      * apply Hle. now right.
Qed.


Lemma py_max_ok (l : list Q) (x : Q) : py_max l = Ok x -> maximum_of x l.
Proof.
  destruct l as [|y l]; simpl; intros H; [discriminate |].
  injection H as <-. apply fold_max2.
Qed.










(** ** create_tree_digraph *)

(** The loop over the deprecated names only warns; it does not fail. *)
Lemma fold_old_params_run (frame : list (string * option pyobj))
    (names : list string) :
  forall param kwargs tr,
  exists ws param' kwargs',
    fold_old_params frame names param kwargs tr = (tr ++ ws, Ok (param', kwargs'))
    /\ forall c, In c ws -> is_deprecation_warning c.
Proof.
  induction names as [|name names IH]; intros param kwargs tr; simpl.
  - exists [], param, kwargs. unfold ret.
    split; [now rewrite app_nil_r | intros c []].
  - destruct (locals_get frame name param name) as [v|].
    + unfold bind, emit.
      destruct (IH (Some v)
                  (match kwargs !! drop4 name with
                   | Some _ => kwargs
                   | None => <[drop4 name:=v]> kwargs
                   end)
                  (tr ++ [Warn "LGBMDeprecationWarning"
                            (deprecation_message name)]))
        as (ws & p' & k' & -> & Hws).
      exists (Warn "LGBMDeprecationWarning" (deprecation_message name) :: ws),
        p', k'.
      split; [now rewrite <- app_assoc |].
      intros c [<- | Hc]; [eexists; reflexivity | auto].
    + apply IH.
Qed.

(** No local variable of [create_tree_digraph] is called [strict]. *)
Lemma create_tree_digraph_no_strict (tree_index : Z)
    (show_info : option (list string)) (precision : option Z)
    (old : old_params) (param_name : string) (param : option pyobj) :
  locals_get (create_tree_digraph_frame tree_index show_info precision old)
    param_name param "strict" = None.
Proof. reflexivity. Qed.

(** [create_tree_digraph] on a supported handle: the warnings of the loop,
    the dump of the model, and then the index test and the walk. *)
Lemma create_tree_digraph_run (booster : handle) (b : Booster)
    (tree_index : Z) (show_info : option (list string))
    (precision : option Z) (old : old_params) (kwargs : gmap string pyobj)
    (tr0 : list call) :
  booster_of booster = Ok b ->
  exists ws kwargs',
    (forall c, In c ws -> is_deprecation_warning c)
    /\ create_tree_digraph booster tree_index show_info precision old kwargs tr0
       = (tr0 ++ ws ++ [DumpModel],
          if tree_index <? Z.of_nat (length (tree_info (dump_model b)))
          then res_bind (getitem (tree_info (dump_model b)) tree_index)
                 (fun ti => _to_graphviz ti
                              (match show_info with Some l => l | None => [] end)
                              (feature_names (dump_model b)) precision kwargs')
          else Raise (IndexError "tree_index is out of range.")).
Proof.
  intros Hb. unfold create_tree_digraph.
  destruct (fold_old_params_run
              (create_tree_digraph_frame tree_index show_info precision old)
              ["old_name"; "old_comment"; "old_filename"; "old_directory";
               "old_format"; "old_engine"; "old_encoding"; "old_graph_attr";
               "old_node_attr"; "old_edge_attr"; "old_body"] None kwargs tr0)
    as (ws & param & kwargs' & Hfold & Hws).
  exists ws, kwargs'. split; [exact Hws |].
  unfold bind at 1. unfold lift at 1. rewrite Hb.
  unfold bind at 1. rewrite Hfold.
  rewrite create_tree_digraph_no_strict. simpl truthy. cbv iota.
  unfold bind, ret, emit, lift, raise. rewrite <- app_assoc.
  destruct (tree_index <? Z.of_nat (length (tree_info (dump_model b))));
    [| reflexivity].
  destruct (getitem (tree_info (dump_model b)) tree_index); reflexivity.
Qed.

Lemma getitem_negative {A : Type} (l : list A) (i : Z) :
  - Z.of_nat (length l) <= i <= -1 ->
  exists x, l !! Z.to_nat (Z.of_nat (length l) + i) = Some x
            /\ getitem l i = Ok x.
Proof.
  intros Hi. unfold getitem.
  replace (i <? 0) with true by (symmetry; apply Z.ltb_lt; lia).
  replace ((0 <=? i + Z.of_nat (length l))
           && (i + Z.of_nat (length l) <? Z.of_nat (length l)))
    with true
    by (symmetry; apply andb_true_iff; split;
        [apply Z.leb_le | apply Z.ltb_lt]; lia).
  replace (Z.of_nat (length l) + i) with (i + Z.of_nat (length l)) by lia.
  destruct (l !! Z.to_nat (i + Z.of_nat (length l))) as [x|] eqn:E; [eauto |].
  apply lookup_ge_None in E. lia.
Qed.

(** The exceptions of the walker. *)
Lemma add_raises show_info names precision (t : tree) :
  forall parent decision g e,
    add show_info names precision t parent decision g = Raise e ->
    e = ValueError "Invalid decision type in tree model."
    \/ e = IndexError "list index out of range".
Proof.
  induction t as [li lv lc | si sf th dt sg iv ic l IHl r IHr];
    intros parent decision g e H; simpl in H; [discriminate |].
  destruct (split_label show_info names precision sf th sg iv ic)
    as [label|e0] eqn:El; simpl in H.
  - destruct (decision_labels dt) as [[ld rd]|e1] eqn:Ed; simpl in H.
    + destruct (add show_info names precision l _ _ _) as [g1|e2] eqn:E1;
        simpl in H.
      * destruct (add show_info names precision r _ _ _) as [g2|e3] eqn:E2;
          simpl in H; [discriminate |].
        injection H as <-. eapply IHr, E2.
      * injection H as <-. eapply IHl, E1.
    + injection H as <-. left.
      unfold decision_labels in Ed.
      destruct (String.eqb dt "<="); [discriminate |].
      destruct (String.eqb dt "=="); [discriminate |].
      now injection Ed as <-.
  - injection H as <-. right.
    unfold split_label in El. destruct names as [ns|]; [| discriminate].
    unfold getitem in El.
    destruct ((0 <=? (if sf <? 0 then sf + Z.of_nat (length ns) else sf))
              && ((if sf <? 0 then sf + Z.of_nat (length ns) else sf)
                  <? Z.of_nat (length ns)));
      [destruct (ns !! _) |]; simpl in El; try discriminate;
      now injection El as <-.
Qed.

(** C9. For a model with n trees and [-n <= tree_index <= -1],
    [create_tree_digraph] passes the test [tree_index < n] and walks the
    tree at position [n + tree_index]: what it returns or raises is what
    [_to_graphviz] does on that tree, and it is not the error for a tree
    index out of range. *)
Theorem create_tree_digraph_negative_index (booster : handle) (b : Booster)
    (tree_index : Z) (show_info : option (list string))
    (precision : option Z) (old : old_params) (kwargs : gmap string pyobj)
    (tr0 : list call) :
  booster_of booster = Ok b ->
  - Z.of_nat (length (tree_info (dump_model b))) <= tree_index <= -1 ->
  exists ws kwargs' ti,
    tree_info (dump_model b)
      !! Z.to_nat (Z.of_nat (length (tree_info (dump_model b))) + tree_index)
    = Some ti
    /\ (forall c, In c ws -> is_deprecation_warning c)
    /\ create_tree_digraph booster tree_index show_info precision old kwargs tr0
       = (tr0 ++ ws ++ [DumpModel],
          _to_graphviz ti (match show_info with Some l => l | None => [] end)
            (feature_names (dump_model b)) precision kwargs')
    /\ snd (create_tree_digraph booster tree_index show_info precision old
              kwargs tr0)
       <> Raise (IndexError "tree_index is out of range.").
Proof.
  intros Hb Hi.
  destruct (create_tree_digraph_run booster b tree_index show_info precision
              old kwargs tr0 Hb) as (ws & kwargs' & Hws & Hrun).
  destruct (getitem_negative _ _ Hi) as (ti & Hti & Hget).
  exists ws, kwargs', ti.
  replace (tree_index <? Z.of_nat (length (tree_info (dump_model b))))
    with true in Hrun by (symmetry; apply Z.ltb_lt; lia).
  rewrite Hget in Hrun. simpl in Hrun.
  split; [exact Hti |]. split; [exact Hws |]. split; [exact Hrun |].
  rewrite Hrun. simpl. unfold _to_graphviz.
  destruct GRAPHVIZ_INSTALLED; [| discriminate].
  intros H. apply add_raises in H as [H | H]; discriminate.
Qed.

(** The value of [old_strict] does not reach the loop over the deprecated
    names nor the test that follows it. *)
Lemma fold_old_params_ext (frame1 frame2 : list (string * option pyobj))
    (names : list string) :
  (forall name pn p, In name names ->
     locals_get frame1 pn p name = locals_get frame2 pn p name) ->
  forall param kwargs tr,
    fold_old_params frame1 names param kwargs tr
    = fold_old_params frame2 names param kwargs tr.
Proof.
  induction names as [|name names IH]; intros Hext param kwargs tr;
    [reflexivity |].
  simpl. rewrite (Hext name name param) by now left.
  destruct (locals_get frame2 name param name) as [v|].
  - unfold bind, emit. apply IH. intros n pn p Hn. apply Hext. now right.
  - apply IH. intros n pn p Hn. apply Hext. now right.
Qed.

Lemma create_tree_digraph_old_strict_unused (booster : handle)
    (tree_index : Z) (show_info : option (list string))
    (precision : option Z) (old : old_params) (strict : bool)
    (kwargs : gmap string pyobj) (tr0 : list call) :
  create_tree_digraph booster tree_index show_info precision old kwargs tr0
  = create_tree_digraph booster tree_index show_info precision
      (with_old_strict old strict) kwargs tr0.
Proof.
  unfold create_tree_digraph, bind.
  destruct (lift (booster_of booster) tr0) as [tr1 [b|e]]; [| reflexivity].
  rewrite (fold_old_params_ext
             (create_tree_digraph_frame tree_index show_info precision old)
             (create_tree_digraph_frame tree_index show_info precision
                (with_old_strict old strict))).
  - destruct (fold_old_params _ _ _ _ _) as [tr2 [[param kwargs']|e]];
      [| reflexivity].
    rewrite !create_tree_digraph_no_strict. reflexivity.
  - intros name pn p Hin. simpl in Hin.
    repeat (destruct Hin as [<- | Hin]; [reflexivity |]). destruct Hin.
Qed.

Lemma for_each_emit {A : Type} (l : list A) (f : A -> call) :
  forall tr, for_each l (fun x => emit (f x)) tr = (tr ++ map f l, Ok tt).
Proof.
  induction l as [|x l IH]; intros tr; simpl.
  - unfold ret. now rewrite app_nil_r.
  - unfold bind, emit at 1. rewrite IH. now rewrite <- app_assoc.
Qed.


(** ** More on plot_importance *)

Lemma set_opt_run (setter : string -> call) (text : option string) tr :
  set_opt setter text tr = (tr ++ opt_calls setter text, Ok tt).
Proof.
  destruct text; simpl; [reflexivity |]. unfold ret. now rewrite app_nil_r.
Qed.

Lemma set_lim_ok (setter : pyobj -> call) (lim : option pyobj)
    (name : string) (default : res pyobj) tr tr' u :
  set_lim setter lim name default tr = (tr', Ok u) ->
  exists l,
    tr' = tr ++ [setter l]
    /\ (lim = Some l /\ _check_not_tuple_of_2_elements l name = Ok tt
        \/ lim = None /\ default = Ok l).
Proof.
  unfold set_lim. intros H. peel H l tr1 H1. apply emit_ok in H as ->.
  exists l. destruct lim as [l0|].
  - peel H1 u0 tr2 H2. apply lift_ok in H2 as [Hc ->].
    unfold ret in H1. injection H1 as <- <-. destruct u0. auto.
  - apply lift_ok in H1 as [Hd ->]. auto.
Qed.

(** What a call of [plot_importance] that returns has done. *)
Lemma plot_importance_ok (booster : handle) (ax : option Axes) (height : Q)
    (xlim ylim : option pyobj) (title xlabel ylabel : option string)
    (importance_type : string) (max_num_features : option Z)
    (ignore_zero : bool) (figsize : option pyobj) (grid : bool)
    (precision : option Z) (kwargs : gmap string pyobj)
    (tr0 tr : list call) (ax' : Axes) :
  plot_importance booster ax height xlim ylim title xlabel ylabel
    importance_type max_num_features ignore_zero figsize grid precision
    kwargs tr0 = (tr, Ok ax') ->
  exists b tr1 xl yl,
    booster_of booster = Ok b
    /\ MATPLOTLIB_INSTALLED = true
    /\ feature_importance b importance_type <> []
    /\ let kept := select_tuples (feature_name b)
                     (feature_importance b importance_type) ignore_zero
                     max_num_features in
       let ylocs := range_ (length kept) in
       kept <> []
       /\ get_axes ax figsize
            (tr0 ++ [FeatureImportance importance_type; FeatureName])
          = (tr1, Ok ax')
       /\ (xlim = Some xl
             /\ _check_not_tuple_of_2_elements xl "xlim" = Ok tt
           \/ xlim = None
              /\ exists m, py_max (map snd kept) = Ok m
                           /\ xl = OTuple [0%Q; (m * 1.1)%Q])
       /\ (ylim = Some yl
             /\ _check_not_tuple_of_2_elements yl "ylim" = Ok tt
           \/ ylim = None
              /\ yl = OTuple [(-1)%Q; inject_Z (Z.of_nat (length kept))])
       /\ tr = tr1
               ++ [Barh ylocs (map snd kept) height kwargs]
               ++ map (bar_text importance_type precision)
                    (zip_ (map snd kept) ylocs)
               ++ [SetYticks ylocs; SetYticklabels (map fst kept);
                   SetXlim xl; SetYlim yl]
               ++ opt_calls SetTitle title ++ opt_calls SetXlabel xlabel
               ++ opt_calls SetYlabel ylabel ++ [Grid grid].
Proof.
  intros H. unfold plot_importance in H.
  peel H u0 tr1 H1. apply when_ok in H1 as [Hinst ->].
  apply negb_false_iff in Hinst.
  peel H b tr1 H1. apply lift_ok in H1 as [Hb ->].
  peel H u1 tr1 H1. apply emit_ok in H1 as ->.
  peel H u2 tr2 H1. apply emit_ok in H1 as ->.
  peel H u3 tr3 H1. apply when_ok in H1 as [Hlen ->].
  peel H lv tr3 H1. destruct lv as [labels values].
  apply lift_ok in H1 as [Hunzip ->].
  apply unzip_pairs_ok in Hunzip as (-> & -> & Hne).
  peel H ax1 tr3 Hax.
  peel H u4 tr4 H1. apply emit_ok in H1 as ->.
  peel H u5 tr5 Htexts. rewrite for_each_emit in Htexts.
  injection Htexts as <-.
  peel H u6 tr6 H1. apply emit_ok in H1 as ->.
  peel H u7 tr7 H1. apply emit_ok in H1 as ->.
  peel H u8 tr8 H1. apply set_lim_ok in H1 as (xl & -> & Hxl).
  peel H u9 tr9 H1. apply set_lim_ok in H1 as (yl & -> & Hyl).
  unfold bind at 1 in H. rewrite set_opt_run in H.
  unfold bind at 1 in H. rewrite set_opt_run in H.
  unfold bind at 1 in H. rewrite set_opt_run in H.
  unfold bind, emit, ret in H. injection H as <- <-.
  rewrite !length_map in *.
  exists b, tr3, xl, yl.
  split; [exact Hb |]. split; [exact Hinst |].
  split.
  { intros E. rewrite E in Hlen. discriminate. }
  split; [exact Hne |].
  split; [rewrite <- app_assoc in Hax; exact Hax |].
  split.
  { destruct Hxl as [Hxl | [Hx Hd]]; [auto |]. right. split; [exact Hx |].
    destruct (py_max _) as [m|e] eqn:Em; [| discriminate].
    simpl in Hd. injection Hd as <-. eauto. }
  split.
  { destruct Hyl as [Hyl | [Hy Hd]]; [auto |]. right. split; [exact Hy |].
    now injection Hd as <-. }
  rewrite <- !app_assoc. reflexivity.
Qed.

Lemma in_drop {A : Type} (n : nat) (l : list A) (x : A) :
  In x (drop n l) -> In x l.
Proof.
  revert l. induction n as [|n IH]; intros [|y l]; simpl; auto.
Qed.

(** The pairs that are plotted are pairs of the booster, with a positive
    score when zeros are ignored, in ascending order of score. *)
Lemma select_tuples_spec (names : list string) (importance : list Q)
    (ignore_zero : bool) (max_num_features : option Z) :
  let kept := select_tuples names importance ignore_zero max_num_features in
  StronglySorted score_le kept
  /\ forall p, In p kept ->
       In p (zip_ names importance)
       /\ (ignore_zero = true -> (0 < snd p)%Q).
Proof.
  unfold select_tuples.
  set (sorted := sorted_by_score (zip_ names importance)).
  set (candidates := if ignore_zero
                     then List.filter (fun x => Qltb 0 (snd x)) sorted
                     else sorted).
  assert (StronglySorted score_le candidates) as Hs.
  { unfold candidates, sorted. destruct ignore_zero;
      [apply filter_sorted |]; apply sorted_by_score_sorted. }
  assert (forall p, In p candidates ->
            In p (zip_ names importance)
            /\ (ignore_zero = true -> (0 < snd p)%Q)) as Hc.
  { intros p Hp. unfold candidates in Hp. destruct ignore_zero.
    - apply filter_In in Hp as [Hp Hpos]. split.
      + apply (Permutation_in _ (sorted_by_score_perm _) Hp).
      + intros _. now apply Qltb_true.
    - split; [| discriminate].
      apply (Permutation_in _ (sorted_by_score_perm _) Hp). }
  assert (forall n, StronglySorted score_le (last_items n candidates)
                    /\ forall p, In p (last_items n candidates) ->
                         In p candidates) as Hl.
  { intros n. split.
    - rewrite (last_items_split n candidates) in Hs.
      now apply sorted_app in Hs as [Hs _].
    - intros p. apply in_drop. }
  destruct max_num_features as [n|]; [destruct (0 <? n) |]; simpl;
    try (split; [exact Hs | exact Hc]).
  destruct (Hl n) as [H1 H2]. split; [exact H1 |].
  intros p Hp. apply Hc, H2, Hp.
Qed.

(** X1. With [ignore_zero] set, every bar that [plot_importance] draws has
    a strictly positive value. *)
Theorem plot_importance_bars_positive (booster : handle) (ax : option Axes)
    (height : Q) (xlim ylim : option pyobj) (title xlabel ylabel : option string)
    (importance_type : string) (max_num_features : option Z)
    (figsize : option pyobj) (grid : bool) (precision : option Z)
    (kwargs : gmap string pyobj) (tr0 tr : list call) (ax' : Axes) :
  plot_importance booster ax height xlim ylim title xlabel ylabel
    importance_type max_num_features true figsize grid precision kwargs tr0
  = (tr, Ok ax') ->
  exists ylocs values,
    In (Barh ylocs values height kwargs) tr
    /\ values <> []
    /\ forall v, In v values -> (0 < v)%Q.
Proof.
  intros H.
  apply plot_importance_ok in H
    as (b & tr1 & xl & yl & _ & _ & _ & Hne & _ & _ & _ & ->).
  eexists _, _. split; [| split].
  - rewrite !in_app_iff. right. left. left. reflexivity.
  - intros E. apply Hne. now apply map_eq_nil in E.
  - intros v Hv. apply in_map_iff in Hv as (p & <- & Hp).
    now apply select_tuples_spec in Hp as [_ Hpos]; auto.
Qed.

(** X2. The bars that [plot_importance] draws are in ascending order of
    value, bottom to top, and the label and the value of each bar are the
    name and the importance that the booster gives at one same position. *)
Theorem plot_importance_bars_ascending (booster : handle) (ax : option Axes)
    (height : Q) (xlim ylim : option pyobj) (title xlabel ylabel : option string)
    (importance_type : string) (max_num_features : option Z)
    (ignore_zero : bool) (figsize : option pyobj) (grid : bool)
    (precision : option Z) (kwargs : gmap string pyobj)
    (tr0 tr : list call) (ax' : Axes) :
  plot_importance booster ax height xlim ylim title xlabel ylabel
    importance_type max_num_features ignore_zero figsize grid precision
    kwargs tr0 = (tr, Ok ax') ->
  exists b kept,
    booster_of booster = Ok b
    /\ In (Barh (range_ (length kept)) (map snd kept) height kwargs) tr
    /\ In (SetYticks (range_ (length kept))) tr
    /\ In (SetYticklabels (map fst kept)) tr
    /\ StronglySorted score_le kept
    /\ forall p, In p kept ->
         In p (zip_ (feature_name b) (feature_importance b importance_type)).
Proof.
  intros H.
  apply plot_importance_ok in H
    as (b & tr1 & xl & yl & Hb & _ & _ & _ & _ & _ & _ & ->).
  eexists b, _. split; [exact Hb |].
  split; [rewrite !in_app_iff; right; left; left; reflexivity |].
  split; [rewrite !in_app_iff; simpl; tauto |].
  split; [rewrite !in_app_iff; simpl; tauto |].
  split; [apply select_tuples_spec |].
  intros p Hp. now apply select_tuples_spec in Hp.
Qed.

(** X3. Without [max_num_features], or with one below 1, [plot_importance]
    draws all the pairs: those with a positive score when [ignore_zero] is
    set, every pair of the booster otherwise. *)
Theorem plot_importance_all_features (booster : handle) (ax : option Axes)
    (height : Q) (xlim ylim : option pyobj) (title xlabel ylabel : option string)
    (importance_type : string) (max_num_features : option Z)
    (ignore_zero : bool) (figsize : option pyobj) (grid : bool)
    (precision : option Z) (kwargs : gmap string pyobj)
    (tr0 tr : list call) (ax' : Axes) :
  (forall n, max_num_features = Some n -> n < 1) ->
  plot_importance booster ax height xlim ylim title xlabel ylabel
    importance_type max_num_features ignore_zero figsize grid precision
    kwargs tr0 = (tr, Ok ax') ->
  exists b kept,
    booster_of booster = Ok b
    /\ In (Barh (range_ (length kept)) (map snd kept) height kwargs) tr
    /\ Permutation kept
         (if ignore_zero
          then List.filter (fun x => Qltb 0 (snd x))
                 (zip_ (feature_name b) (feature_importance b importance_type))
          else zip_ (feature_name b) (feature_importance b importance_type)).
Proof.
  intros Hn H.
  apply plot_importance_ok in H
    as (b & tr1 & xl & yl & Hb & _ & _ & _ & _ & _ & _ & ->).
  eexists b, _. split; [exact Hb |].
  split; [rewrite !in_app_iff; right; left; left; reflexivity |].
  unfold select_tuples.
  assert (forall A (f : A * Q -> bool) l,
            Permutation (if ignore_zero then List.filter f (sorted_by_score l)
                         else sorted_by_score l)
                        (if ignore_zero then List.filter f l else l)) as Hp.
  { intros A f l. destruct ignore_zero; [| apply sorted_by_score_perm].
    induction (sorted_by_score_perm l); simpl.
    - constructor.
    - destruct (f x); [constructor |]; assumption.
    - destruct (f x), (f y); try constructor; reflexivity.
    - etransitivity; eassumption. }
  destruct max_num_features as [n|]; [| apply Hp].
  specialize (Hn n eq_refl).
  replace (0 <? n) with false by (symmetry; apply Z.ltb_ge; lia).
  apply Hp.
Qed.

(** X4. Without [xlim] and [ylim], [plot_importance] sets the x-range to
    [(0, M * 1.1)], [M] being the largest value drawn, and the y-range to
    [(-1, number of bars)]. *)
Theorem plot_importance_default_ranges (booster : handle) (ax : option Axes)
    (height : Q) (title xlabel ylabel : option string)
    (importance_type : string) (max_num_features : option Z)
    (ignore_zero : bool) (figsize : option pyobj) (grid : bool)
    (precision : option Z) (kwargs : gmap string pyobj)
    (tr0 tr : list call) (ax' : Axes) :
  plot_importance booster ax height None None title xlabel ylabel
    importance_type max_num_features ignore_zero figsize grid precision
    kwargs tr0 = (tr, Ok ax') ->
  exists ylocs values M,
    In (Barh ylocs values height kwargs) tr
    /\ maximum_of M values
    /\ In (SetXlim (OTuple [0%Q; (M * 1.1)%Q])) tr
    /\ In (SetYlim (OTuple [(-1)%Q; inject_Z (Z.of_nat (length values))])) tr.
Proof.
  intros H.
  apply plot_importance_ok in H
    as (b & tr1 & xl & yl & _ & _ & _ & _ & _ & Hxl & Hyl & ->).
  destruct Hxl as [[Hx _] | [_ (M & HM & ->)]]; [discriminate |].
  destruct Hyl as [[Hy _] | [_ ->]]; [discriminate |].
  eexists _, _, M.
  split; [rewrite !in_app_iff; right; left; left; reflexivity |].
  split; [now apply py_max_ok |].
  rewrite length_map.
  split; rewrite !in_app_iff; simpl; tauto.
Qed.

(** X5. On a booster whose importance vector is empty, [plot_importance]
    raises its ValueError after reading the importances and the names;
    nothing is drawn. *)
Theorem plot_importance_empty (booster : handle) (b : Booster)
    (ax : option Axes) (height : Q) (xlim ylim : option pyobj)
    (title xlabel ylabel : option string) (importance_type : string)
    (max_num_features : option Z) (ignore_zero : bool)
    (figsize : option pyobj) (grid : bool) (precision : option Z)
    (kwargs : gmap string pyobj) (tr0 : list call) :
  MATPLOTLIB_INSTALLED = true ->
  booster_of booster = Ok b ->
  feature_importance b importance_type = [] ->
  plot_importance booster ax height xlim ylim title xlabel ylabel
    importance_type max_num_features ignore_zero figsize grid precision
    kwargs tr0
  = (tr0 ++ [FeatureImportance importance_type; FeatureName],
     Raise (ValueError "Booster's feature_importance is empty.")).
Proof.
  intros Hinst Hb He.
  unfold plot_importance, bind, when, lift, emit, raise, ret.
  rewrite Hinst, Hb, He. simpl. now rewrite <- app_assoc.
Qed.

Lemma in_zip_range {A : Type} (l : list A) :
  forall (k i : nat) (v : A),
    l !! i = Some v ->
    In (v, Z.of_nat (k + i)) (zip_ l (map Z.of_nat (seq k (length l)))).
Proof.
  induction l as [|x l IH]; intros k i v H; [discriminate |].
  destruct i as [|i]; simpl in *.
  - injection H as <-. left. now rewrite Nat.add_0_r.
  - right. replace (k + S i)%nat with (S k + i)%nat by lia. now apply IH.
Qed.

(** X6. Beside each bar, [plot_importance] writes the value of the bar, one
    unit to the right of its end: for the importance type [gain] as text
    through [_float2str] with the precision, for any other type the value
    itself. *)
Theorem plot_importance_texts (booster : handle) (ax : option Axes)
    (height : Q) (xlim ylim : option pyobj) (title xlabel ylabel : option string)
    (importance_type : string) (max_num_features : option Z)
    (ignore_zero : bool) (figsize : option pyobj) (grid : bool)
    (precision : option Z) (kwargs : gmap string pyobj)
    (tr0 tr : list call) (ax' : Axes) :
  plot_importance booster ax height xlim ylim title xlabel ylabel
    importance_type max_num_features ignore_zero figsize grid precision
    kwargs tr0 = (tr, Ok ax') ->
  exists ylocs values,
    In (Barh ylocs values height kwargs) tr
    /\ forall (i : nat) (v : Q),
         values !! i = Some v ->
         In (Text (v + 1)%Q (Z.of_nat i)
               (if String.eqb importance_type "gain"
                then PStr (_float2str (PNum v) precision)
                else PNum v)) tr.
Proof.
  intros H.
  apply plot_importance_ok in H
    as (b & tr1 & xl & yl & _ & _ & _ & _ & _ & _ & _ & ->).
  eexists _, _.
  split; [rewrite !in_app_iff; right; left; left; reflexivity |].
  intros i v Hv. rewrite !in_app_iff. right. right. left.
  apply in_map_iff. exists (v, Z.of_nat i). split; [reflexivity |].
  unfold range_. rewrite <- (length_map snd).
  apply (in_zip_range _ 0 i v Hv).
Qed.

(** ** More on plot_split_value_histogram *)

(** What a call of [plot_split_value_histogram] that returns has done. *)
Lemma plot_split_value_histogram_ok (booster : handle) (feature : feature_id)
    (bins : option bins_arg) (ax : option Axes) (width_coef : Q)
    (xlim ylim : option pyobj) (title xlabel ylabel : option string)
    (figsize : option pyobj) (grid : bool) (kwargs : gmap string pyobj)
    (tr0 tr : list call) (ax' : Axes) :
  plot_split_value_histogram booster feature bins ax width_coef xlim ylim
    title xlabel ylabel figsize grid kwargs tr0 = (tr, Ok ax') ->
  exists b tr1 e1 e0 xl yl,
    booster_of booster = Ok b
    /\ let hist := fst (get_split_value_histogram b feature bins) in
       let e := snd (get_split_value_histogram b feature bins) in
       forallb (Z.eqb 0) hist = false
       /\ np_getitem e 1 = Ok e1 /\ np_getitem e 0 = Ok e0
       /\ get_axes ax figsize (tr0 ++ [GetSplitValueHistogram feature bins])
          = (tr1, Ok ax')
       /\ (xlim = Some xl
           \/ xlim = None
              /\ exists elast, np_getitem e (-1) = Ok elast
                   /\ xl = OTuple [(e0 - (elast - e0) * 0.2)%Q;
                                   (elast + (elast - e0) * 0.2)%Q])
       /\ (ylim = Some yl
           \/ ylim = None
              /\ exists m, py_max (map inject_Z hist) = Ok m
                   /\ yl = OTuple [0%Q; (m * 1.1)%Q])
       /\ tr = tr1
               ++ [Bar (centred_of e) hist (width_coef * (e1 - e0))%Q kwargs;
                   SetXlim xl; SetMajorLocator; SetYlim yl]
               ++ opt_calls SetTitle
                    (match title with
                     | Some t =>
                         Some (str_replace
                                 (str_replace t "@feature@" (str_feature feature))
                                 "@index/name@"
                                 (match feature with
                                  | FName _ => "name"
                                  | FIndex _ => "index"
                                  end))
                     | None => None
                     end)
               ++ opt_calls SetXlabel xlabel ++ opt_calls SetYlabel ylabel
               ++ [Grid grid].
Proof.
  intros H. unfold plot_split_value_histogram in H.
  peel H u0 tr1 H1. apply when_ok in H1 as [_ ->].
  peel H b tr1 H1. apply lift_ok in H1 as [Hb ->].
  peel H u1 tr1 H1. apply emit_ok in H1 as ->.
  peel H u2 tr2 H1. apply when_ok in H1 as [Hz ->].
  peel H e1 tr2 H1. apply lift_ok in H1 as [He1 ->].
  peel H e0 tr2 H1. apply lift_ok in H1 as [He0 ->].
  peel H ax1 tr2 Hax.
  peel H u3 tr3 H1. apply emit_ok in H1 as ->.
  peel H u4 tr4 H1. apply set_lim_ok in H1 as (xl & -> & Hxl).
  peel H u5 tr5 H1. apply emit_ok in H1 as ->.
  peel H u6 tr6 H1. apply set_lim_ok in H1 as (yl & -> & Hyl).
  peel H u7 tr7 Ht.
  unfold bind at 1 in H. rewrite set_opt_run in H.
  unfold bind at 1 in H. rewrite set_opt_run in H.
  unfold bind, emit, ret in H. injection H as <- <-.
  exists b, tr2, e1, e0, xl, yl.
  split; [exact Hb |]. split; [exact Hz |].
  split; [exact He1 |]. split; [exact He0 |]. split; [exact Hax |].
  split.
  { destruct Hxl as [[Hx _] | [Hx Hd]]; [auto |]. right. split; [exact Hx |].
    destruct (np_getitem _ (-1)) as [elast|e] eqn:El; [| discriminate].
    simpl in Hd. rewrite He0 in Hd. simpl in Hd. injection Hd as <-. eauto. }
  split.
  { destruct Hyl as [[Hy _] | [Hy Hd]]; [auto |]. right. split; [exact Hy |].
    destruct (py_max _) as [m|e] eqn:Em; [| discriminate].
    simpl in Hd. injection Hd as <-. eauto. }
  assert (tr7 = (((((tr2 ++ [Bar (centred_of
                     (snd (get_split_value_histogram b feature bins)))
                     (fst (get_split_value_histogram b feature bins))
                     (width_coef * (e1 - e0))%Q kwargs]) ++ [SetXlim xl])
                  ++ [SetMajorLocator]) ++ [SetYlim yl])
                ++ opt_calls SetTitle
                     (match title with
                      | Some t =>
                          Some (str_replace
                                  (str_replace t "@feature@"
                                     (str_feature feature))
                                  "@index/name@"
                                  (match feature with
                                   | FName _ => "name"
                                   | FIndex _ => "index"
                                   end))
                      | None => None
                      end))) as ->.
  { destruct title as [t|]; simpl in Ht.
    - now apply emit_ok in Ht.
    - unfold ret in Ht. injection Ht as <-. now rewrite app_nil_r. }
  rewrite <- !app_assoc. reflexivity.
Qed.

(** X7. On a feature whose histogram has no count other than zero,
    [plot_split_value_histogram] raises its ValueError after fetching the
    histogram; nothing is drawn. *)
Theorem plot_split_value_histogram_unused_feature (booster : handle)
    (b : Booster) (feature : feature_id) (bins : option bins_arg)
    (ax : option Axes) (width_coef : Q) (xlim ylim : option pyobj)
    (title xlabel ylabel : option string) (figsize : option pyobj)
    (grid : bool) (kwargs : gmap string pyobj) (tr0 : list call) :
  MATPLOTLIB_INSTALLED = true ->
  booster_of booster = Ok b ->
  Forall (fun count => count = 0)
    (fst (get_split_value_histogram b feature bins)) ->
  plot_split_value_histogram booster feature bins ax width_coef xlim ylim
    title xlabel ylabel figsize grid kwargs tr0
  = (tr0 ++ [GetSplitValueHistogram feature bins],
     Raise (ValueError
              ("Cannot plot split value histogram, because feature "
               +:+ str_feature feature +:+ " was not used in splitting"))).
Proof.
  intros Hinst Hb Hz.
  assert (forallb (Z.eqb 0) (fst (get_split_value_histogram b feature bins))
          = true) as E.
  { apply forallb_forall. intros x Hx. rewrite Forall_forall in Hz.
    apply list_elem_of_In, Hz in Hx. now subst. }
  unfold plot_split_value_histogram, bind, when, lift, emit, raise, ret.
  rewrite Hinst, Hb. simpl. now rewrite E.
Qed.

Lemma np_getitem_last {A : Type} (l : list A) (x : A) :
  np_getitem l (-1) = Ok x -> last l = Some x.
Proof.
  unfold np_getitem, getitem. simpl.
  destruct ((0 <=? -1 + Z.of_nat (length l))
            && (-1 + Z.of_nat (length l) <? Z.of_nat (length l))) eqn:E;
    [| discriminate].
  destruct (l !! Z.to_nat (-1 + Z.of_nat (length l))) as [y|] eqn:El;
    [| discriminate].
  intros H. injection H as <-.
  rewrite last_lookup.
  replace (Nat.pred (length l)) with (Z.to_nat (-1 + Z.of_nat (length l)))
    by lia.
  exact El.
Qed.

(** X8. Without [xlim] and [ylim], [plot_split_value_histogram] sets the
    x-range to the span of the bin edges widened by 0.2 of its length on
    each side, and the y-range to [(0, M * 1.1)], [M] being the largest
    count. *)
Theorem plot_split_value_histogram_default_ranges (booster : handle)
    (feature : feature_id) (bins : option bins_arg) (ax : option Axes)
    (width_coef : Q) (title xlabel ylabel : option string)
    (figsize : option pyobj) (grid : bool) (kwargs : gmap string pyobj)
    (tr0 tr : list call) (ax' : Axes) :
  plot_split_value_histogram booster feature bins ax width_coef None None
    title xlabel ylabel figsize grid kwargs tr0 = (tr, Ok ax') ->
  exists b efirst elast M,
    booster_of booster = Ok b
    /\ let hist := fst (get_split_value_histogram b feature bins) in
       let e := snd (get_split_value_histogram b feature bins) in
       head e = Some efirst /\ last e = Some elast
       /\ maximum_of M (map inject_Z hist)
       /\ In (SetXlim (OTuple [(efirst - (elast - efirst) * 0.2)%Q;
                               (elast + (elast - efirst) * 0.2)%Q])) tr
       /\ In (SetYlim (OTuple [0%Q; (M * 1.1)%Q])) tr.
Proof using MATPLOTLIB_INSTALLED.
  clear str_float format_fixed.
  intros H.
  apply plot_split_value_histogram_ok in H
    as (b & tr1 & e1 & e0 & xl & yl & Hb & _ & _ & He0 & _ & Hxl & Hyl & ->).
  destruct Hxl as [Hx | [_ (elast & Hlast & ->)]]; [discriminate |].
  destruct Hyl as [Hy | [_ (M & HM & ->)]]; [discriminate |].
  exists b, e0, elast, M.
  split; [exact Hb |].
  split.
  { apply np_getitem_ok in He0; [| lia].
    destruct (snd (get_split_value_histogram b feature bins));
      [discriminate | exact He0]. }
  split; [now apply np_getitem_last |].
  split; [now apply py_max_ok |].
  split; rewrite !in_app_iff; simpl; tauto.
Qed.

Lemma prefix_at (old s : string) (c : ascii) :
  Ascii.eqb c "@" = false ->
  String.prefix (String "@" old) (String c s) = false.
Proof.
  intros H.
  change (String.prefix (String "@" old) (String c s))
    with (if ascii_dec "@" c then String.prefix old s else false).
  destruct (ascii_dec "@" c) as [E|E]; [| reflexivity].
  subst c. discriminate.
Qed.

Lemma replace_from_no_at (old new s : string) :
  has_at s = false -> replace_from (String "@" old) new 0 s = s.
Proof.
  induction s as [|c s IH]; intros H; [reflexivity |].
  simpl in H. apply orb_false_iff in H as [Hc Hs].
  change (replace_from (String "@" old) new 0 (String c s))
    with (if String.prefix (String "@" old) (String c s)
          then new +:+ replace_from (String "@" old) new
                         (String.length (String "@" old) - 1) s
          else String c (replace_from (String "@" old) new 0 s)).
  rewrite (prefix_at old s c Hc). now rewrite IH.
Qed.

(** X9. The title of [plot_split_value_histogram]: a title without the
    character [@] is set as it is; and with the default title, for a
    feature whose text has no [@], the title set ends in [name] and the
    feature name, or in [index] and the feature index. *)
Theorem plot_split_value_histogram_title (booster : handle)
    (feature : feature_id) (bins : option bins_arg) (ax : option Axes)
    (width_coef : Q) (xlim ylim : option pyobj) (title : string)
    (xlabel ylabel : option string) (figsize : option pyobj) (grid : bool)
    (kwargs : gmap string pyobj) (tr0 tr : list call) (ax' : Axes) :
  plot_split_value_histogram booster feature bins ax width_coef xlim ylim
    (Some title) xlabel ylabel figsize grid kwargs tr0 = (tr, Ok ax') ->
  (has_at title = false -> In (SetTitle title) tr)
  /\ (title = "Split value histogram for feature with @index/name@ @feature@" ->
      has_at (str_feature feature) = false ->
      In (SetTitle ("Split value histogram for feature with "
                    +:+ match feature with
                        | FName _ => "name"
                        | FIndex _ => "index"
                        end
                    +:+ " " +:+ str_feature feature)) tr).
Proof.
  intros H.
  apply plot_split_value_histogram_ok in H
    as (b & tr1 & e1 & e0 & xl & yl & _ & _ & _ & _ & _ & _ & _ & ->).
  split.
  - intros Hno. rewrite !in_app_iff. right. right. left.
    unfold str_replace.
    rewrite (replace_from_no_at "feature@" _ title Hno).
    rewrite (replace_from_no_at "index/name@" _ title Hno).
    left. reflexivity.
  - intros -> Hno. rewrite !in_app_iff. right. right. left. left. f_equal.
    unfold str_replace.
    set (f := str_feature feature) in *.
    set (w := match feature with FName _ => "name" | FIndex _ => "index" end).
    assert (forall x, x +:+ "" = x) as Hnil.
    { induction x as [|c x IH]; [reflexivity |].
      change (String c x +:+ "") with (String c (x +:+ "")). now f_equal. }
    change (replace_from "@index/name@" w 0
              (replace_from "@feature@" f 0
                 "Split value histogram for feature with @index/name@ @feature@"))
      with ("Split value histogram for feature with "
            +:+ w +:+ " " +:+ replace_from "@index/name@" w 0 (f +:+ "")).
    rewrite Hnil. now rewrite (replace_from_no_at "index/name@" w f Hno).
Qed.

(** ** More on plot_metric *)

Lemma dict_getitem_ok {V : Type} (d : list (string * V)) (k : string) (v : V) :
  dict_getitem d k = Ok v -> dict_get d k = Some v.
Proof.
  unfold dict_getitem. destruct (dict_get d k); intros H;
    [now injection H as <- | discriminate].
Qed.

Lemma dict_get_set_eq {V : Type} (d : list (string * V)) (k : string) (v : V) :
  dict_get (dict_set d k v) k = Some v.
Proof.
  induction d as [|[k' v'] d IH]; simpl.
  - now rewrite String.eqb_refl.
  - destruct (String.eqb k' k) eqn:E; simpl.
    + now rewrite String.eqb_refl.
    + now rewrite E.
Qed.

Lemma dict_get_in {V : Type} (d : list (string * V)) (k : string) (v : V) :
  dict_get d k = Some v -> In k (map fst d).
Proof.
  induction d as [|[k' v'] d IH]; simpl; [discriminate |].
  destruct (String.eqb_spec k' k); auto.
Qed.

(** After [popitem], the key that was popped is no longer in the
    dictionary. *)
Lemma dict_get_popped {V : Type} (d : list (string * V)) (k : string) (v : V) :
  NoDup (map fst d) -> last d = Some (k, v) ->
  dict_get (removelast d) k = None.
Proof.
  induction d as [|[k' v'] d IH]; intros Hnd Hl; [discriminate |].
  destruct d as [|kv d]; [reflexivity |].
  change (removelast ((k', v') :: kv :: d))
    with ((k', v') :: removelast (kv :: d)).
  change (last ((k', v') :: kv :: d)) with (last (kv :: d)) in Hl.
  simpl map in Hnd. inversion Hnd as [|? ? Hnin Hnd']; subst.
  simpl dict_get. destruct (String.eqb_spec k' k) as [->|Hne].
  - exfalso. apply Hnin.
    assert (In (k, v) (kv :: d)) as Hin.
    { apply list_elem_of_In. eapply last_Some_elem_of. exact Hl. }
    apply (in_map fst) in Hin. apply list_elem_of_In. exact Hin.
  - apply IH; assumption.
Qed.

(** The loop over the remaining datasets draws, for each name in turn, the
    values of the metric of that dataset. *)
Lemma plot_rest_series (eval_results : eval_results_t) (metric : string)
    (x_ : list Z) (names : list string) :
  forall M m tr tr' Mm,
    plot_rest eval_results metric x_ names M m tr = (tr', Ok Mm) ->
    exists series,
      tr' = tr ++ map (series_plot x_) series
      /\ map fst series = names
      /\ forall n r, In (n, r) series ->
           exists ms, dict_get eval_results n = Some ms
                      /\ dict_get ms metric = Some r.
Proof.
  induction names as [|name names IH]; intros M m tr tr' Mm H; simpl in H.
  - unfold ret in H. injection H as <- _. exists [].
    split; [now rewrite app_nil_r |]. split; [reflexivity | intros n r []].
  - peel H metrics tr1 H1. apply lift_ok in H1 as [Hms ->].
    peel H results tr1 H1. apply lift_ok in H1 as [Hr ->].
    peel H rmax tr1 H1. apply lift_ok in H1 as [_ ->].
    peel H rmin tr1 H1. apply lift_ok in H1 as [_ ->].
    peel H u tr1 H1. apply emit_ok in H1 as ->.
    apply IH in H as (series & -> & Hnames & Hseries).
    apply dict_getitem_ok in Hms, Hr.
    exists ((name, results) :: series).
    split; [now rewrite <- app_assoc |].
    split; [simpl; now rewrite Hnames |].
    intros n r [Hin | Hin]; [injection Hin as <- <-; eauto | eauto].
Qed.

(** What a call of [plot_metric] that returns has done. *)
Lemma plot_metric_ok (booster : handle) (metric : option string)
    (dataset_names : option names_arg) (ax : option Axes)
    (xlim ylim : option pyobj) (title xlabel ylabel : option string)
    (figsize : option pyobj) (grid : bool) (tr0 tr : list call) (ax' : Axes) :
  plot_metric booster metric dataset_names ax xlim ylim title xlabel ylabel
    figsize grid tr0 = (tr, Ok ax') ->
  exists er name rest metrics m results er' tr1 warn series xl yl,
    evals_of booster = Some er
    /\ get_axes ax figsize tr0 = (tr1, Ok ax')
    /\ names_of dataset_names er = name :: rest
    /\ dict_get er name = Some metrics
    /\ match metric with
       | Some m0 =>
           m = m0 /\ dict_get metrics m = Some results /\ er' = er
           /\ warn = []
       | None =>
           last metrics = Some (m, results)
           /\ er' = dict_set er name (removelast metrics)
           /\ warn = if (1 <? length metrics)%nat then [metric_warning] else []
       end
    /\ results <> []
    /\ map fst series = rest
    /\ (forall n r, In (n, r) series ->
          exists ms, dict_get er' n = Some ms /\ dict_get ms m = Some r)
    /\ tr = tr1 ++ warn
            ++ [Plot (range_ (length results)) results name]
            ++ map (series_plot (range_ (length results))) series
            ++ [Legend; SetXlim xl; SetYlim yl]
            ++ opt_calls SetTitle title ++ opt_calls SetXlabel xlabel
            ++ opt_calls SetYlabel
                 (match ylabel with
                  | Some y => if String.eqb y "auto" then Some m else Some y
                  | None => None
                  end)
            ++ [Grid grid].
Proof.
  clear str_float format_fixed.
  unfold plot_metric. intros H.
  peel H u0 tr1 H1. apply when_ok in H1 as [_ ->].
  peel H er tr1 H1. apply lift_ok in H1 as [Her ->].
  peel H u1 tr1 H1. apply when_ok in H1 as [_ ->].
  peel H ax1 tr1 Hax.
  peel H names tr2 H1. apply lift_ok in H1 as [Hnames ->].
  peel H nr tr2 H1. destruct nr as [name rest].
  apply lift_ok in H1 as [Hnr ->].
  peel H metrics tr2 H1. apply lift_ok in H1 as [Hms ->].
  apply dict_getitem_ok in Hms.
  peel H mre tr2 Hsel. destruct mre as [[m results] er'].
  peel H M0 tr3 H1. apply lift_ok in H1 as [Hmax ->].
  peel H m0 tr3 H1. apply lift_ok in H1 as [_ ->].
  peel H u3 tr3 H1. apply emit_ok in H1 as ->.
  peel H Mm tr3 Hrest. destruct Mm as [M mn].
  apply plot_rest_series in Hrest as (series & -> & Hsn & Hseries).
  peel H u4 tr3 H1. apply emit_ok in H1 as ->.
  peel H u5 tr3 H1. apply set_lim_ok in H1 as (xl & -> & _).
  peel H u6 tr3 H1. apply set_lim_ok in H1 as (yl & -> & _).
  unfold bind at 1 in H. rewrite set_opt_run in H.
  unfold bind at 1 in H. rewrite set_opt_run in H.
  unfold bind at 1 in H. rewrite set_opt_run in H.
  unfold bind, emit, ret in H. injection H as <- <-.
  assert (exists warn,
            tr2 = tr1 ++ warn
            /\ match metric with
               | Some m0 =>
                   m = m0 /\ dict_get metrics m = Some results /\ er' = er
                   /\ warn = []
               | None =>
                   last metrics = Some (m, results)
                   /\ er' = dict_set er name (removelast metrics)
                   /\ warn = if (1 <? length metrics)%nat
                             then [metric_warning] else []
               end) as (warn & -> & Hwarn).
  { destruct metric as [mt|].
    - peel Hsel r0 tr4 H1. apply lift_ok in H1 as [Hr ->].
      unfold ret in Hsel. injection Hsel as <- <- <- <-. exists [].
      split; [now rewrite app_nil_r |].
      destruct (dict_get metrics mt); [| discriminate].
      now injection Hr as <-.
    - peel Hsel u2 tr4 Hw. peel Hsel it tr5 H1. destruct it as [item ms].
      apply lift_ok in H1 as [Hpop ->].
      unfold ret in Hsel. injection Hsel as <- <- <- <-.
      unfold popitem in Hpop.
      destruct (last metrics) as [kv|] eqn:El; [| discriminate].
      injection Hpop as <- <-.
      exists (if (1 <? length metrics)%nat then [metric_warning] else []).
      split.
      + destruct (1 <? length metrics)%nat; simpl in Hw.
        * now apply emit_ok in Hw.
        * unfold ret in Hw. injection Hw as <-. now rewrite app_nil_r.
      + destruct kv. auto. }
  exists er, name, rest, metrics, m, results, er', tr1, warn, series, xl, yl.
  split.
  { destruct booster; try discriminate; now injection Her as <-. }
  split; [exact Hax |].
  split.
  { destruct dataset_names as [[[|n l]|]|]; simpl in *; try discriminate.
    - injection Hnames as <-. now injection Hnr as <- <-.
    - injection Hnames as <-. destruct (map fst er); [discriminate |].
      now injection Hnr as <- <-. }
  split; [exact Hms |]. split; [exact Hwarn |].
  split; [intros E; subst results; discriminate |].
  split; [exact Hsn |]. split; [exact Hseries |].
  rewrite <- !app_assoc. reflexivity.
Qed.

Lemma get_axes_calls (ax : option Axes) (figsize : option pyobj) tr tr' a :
  get_axes ax figsize tr = (tr', Ok a) ->
  ax = Some a /\ tr' = tr
  \/ ax = None /\ a = NewAxes figsize /\ tr' = tr ++ [Subplots figsize].
Proof.
  destruct ax as [a0|]; simpl.
  - unfold ret. intros H. injection H as <- <-. auto.
  - intros H. peel H u tr1 H1. peel H u1 tr2 H2.
    apply emit_ok in H2 as ->. unfold ret in H. injection H as <- <-.
    right. split; [reflexivity |]. split; [reflexivity |].
    destruct figsize; [apply lift_ok in H1 as [_ ->] |];
      [reflexivity |]. unfold ret in H1. now injection H1 as <-.
Qed.










(** X10. On an evaluation record without any dataset, [plot_metric]
    raises its ValueError at once: no plot surface is created. *)
Theorem plot_metric_empty_record (booster : handle) (metric : option string)
    (dataset_names : option names_arg) (ax : option Axes)
    (xlim ylim : option pyobj) (title xlabel ylabel : option string)
    (figsize : option pyobj) (grid : bool) (tr0 : list call) :
  MATPLOTLIB_INSTALLED = true ->
  evals_of booster = Some [] ->
  plot_metric booster metric dataset_names ax xlim ylim title xlabel ylabel
    figsize grid tr0
  = (tr0, Raise (ValueError "eval results cannot be empty.")).
Proof.
  clear str_float format_fixed.
  intros Hinst Her. unfold plot_metric, bind, when, lift, raise, ret.
  rewrite Hinst. simpl.
  destruct booster as [mo|b|d|]; try discriminate;
    simpl in Her; injection Her as Her; rewrite Her; reflexivity.
Qed.

(** X11. When the metric asked for is not recorded for the first dataset,
    [plot_metric] raises its KeyError, and when the first dataset name is
    not in the record, the KeyError of that name; in both cases after it
    has got its axes and before it draws a line. *)
Theorem plot_metric_lookup_errors (booster : handle) (er : eval_results_t)
    (metric : option string) (dataset_names : option names_arg)
    (name : string) (rest : list string) (ax : option Axes) (a : Axes)
    (xlim ylim : option pyobj) (title xlabel ylabel : option string)
    (figsize : option pyobj) (grid : bool) (tr0 tr1 : list call) :
  MATPLOTLIB_INSTALLED = true ->
  evals_of booster = Some er ->
  er <> [] ->
  get_axes ax figsize tr0 = (tr1, Ok a) ->
  names_of dataset_names er = name :: rest ->
  (dict_get er name = None ->
   plot_metric booster metric dataset_names ax xlim ylim title xlabel ylabel
     figsize grid tr0 = (tr1, Raise (KeyError name)))
  /\ (forall metrics m,
        dict_get er name = Some metrics ->
        metric = Some m ->
        dict_get metrics m = None ->
        plot_metric booster metric dataset_names ax xlim ylim title xlabel
          ylabel figsize grid tr0
        = (tr1, Raise (KeyError "No given metric in eval results."))).
Proof.
  clear str_float format_fixed.
  intros Hinst Her Hne Hax Hnames.
  assert (match dataset_names with
          | None => Ok (map fst er)
          | Some (NamesSeq (n :: names)) => Ok (n :: names)
          | Some _ =>
              Raise (ValueError
                "dataset_names should be iterable and cannot be empty")
          end = Ok (name :: rest)) as Hsel.
  { destruct dataset_names as [[[|n l]|]|]; simpl in Hnames;
      try discriminate; now rewrite Hnames. }
  assert (match booster with
          | HLGBMModel m => Ok (evals_result_ m)
          | HDict d => Ok d
          | _ => Raise (TypeError "booster must be dict or LGBMModel.")
          end = Ok er) as Hb.
  { destruct booster; try discriminate; simpl in Her; now injection Her as ->. }
  split.
  - intros Hnone. unfold plot_metric.
    unfold bind at 1. rewrite Hinst. simpl when. unfold ret at 1.
    unfold bind at 1. unfold lift at 1. rewrite Hb.
    unfold bind at 1.
    destruct er as [|d0 d']; [contradiction |].
    simpl when. unfold ret at 1.
    unfold bind at 1. rewrite Hax.
    unfold bind at 1. unfold lift at 1. rewrite Hsel.
    unfold bind at 1. unfold lift at 1.
    unfold bind at 1. unfold lift at 1. unfold dict_getitem.
    rewrite Hnone. reflexivity.
  - intros metrics m Hms -> Hm. unfold plot_metric.
    unfold bind at 1. rewrite Hinst. simpl when. unfold ret at 1.
    unfold bind at 1. unfold lift at 1. rewrite Hb.
    unfold bind at 1.
    destruct er as [|d0 d']; [contradiction |].
    simpl when. unfold ret at 1.
    unfold bind at 1. rewrite Hax.
    unfold bind at 1. unfold lift at 1. rewrite Hsel.
    unfold bind at 1. unfold lift at 1.
    unfold bind at 1. unfold lift at 1. unfold dict_getitem at 1.
    rewrite Hms.
    unfold bind at 1. unfold bind at 1. unfold lift at 1.
    rewrite Hm. reflexivity.
Qed.

Lemma plot_labels_app (a b : list call) :
  plot_labels (a ++ b) = plot_labels a ++ plot_labels b.
Proof. apply flat_map_app. Qed.

Lemma plot_labels_series (x_ : list Z) (series : list (string * list Q)) :
  plot_labels (map (series_plot x_) series) = map fst series.
Proof.
  induction series as [|[n r] series IH]; simpl; [reflexivity | now f_equal].
Qed.

Lemma plot_labels_opt_calls (setter : string -> call) (text : option string) :
  (forall t, is_plot (setter t) = false) ->
  plot_labels (opt_calls setter text) = [].
Proof.
  intros H. destruct text as [t|]; [| reflexivity]. simpl.
  specialize (H t). destruct (setter t); try discriminate; reflexivity.
Qed.

(** X12. [plot_metric] draws one line per dataset, labelled with the name
    of the dataset, in the order of [dataset_names] when it is given and in
    the order of the record otherwise, and then asks for the legend. *)
Theorem plot_metric_line_labels (booster : handle) (metric : option string)
    (dataset_names : option names_arg) (ax : option Axes)
    (xlim ylim : option pyobj) (title xlabel ylabel : option string)
    (figsize : option pyobj) (grid : bool) (tr : list call) (ax' : Axes) :
  run (plot_metric booster metric dataset_names ax xlim ylim title xlabel
         ylabel figsize grid) = (tr, Ok ax') ->
  exists er,
    evals_of booster = Some er
    /\ plot_labels tr = names_of dataset_names er
    /\ In Legend tr.
Proof using MATPLOTLIB_INSTALLED.
  clear str_float format_fixed.
  unfold run. intros H.
  apply plot_metric_ok in H
    as (er & name & rest & metrics & m & results & er' & tr1 & warn & series
        & xl & yl & Her & Hax & Hnames & _ & Hwarn & _ & Hsn & _ & ->).
  exists er. split; [exact Her |]. split.
  - rewrite !plot_labels_app, plot_labels_series,
      !plot_labels_opt_calls by reflexivity.
    assert (plot_labels tr1 = []) as ->.
    { apply get_axes_calls in Hax as [[_ ->] | (_ & _ & ->)]; reflexivity. }
    assert (plot_labels warn = []) as ->.
    { destruct metric; [now destruct Hwarn as (_ & _ & _ & ->) |].
      destruct Hwarn as (_ & _ & ->).
      destruct (1 <? length metrics)%nat; reflexivity. }
    simpl. rewrite app_nil_r, Hsn. now rewrite Hnames.
  - rewrite !in_app_iff. simpl. tauto.
Qed.

(** X13. Without [metric], [plot_metric] takes the metric out of the copy
    of the first dataset's record; so when [dataset_names] names the first
    dataset a second time, the call does not return: the metric is no
    longer there for the second line. *)
Theorem plot_metric_first_dataset_twice (booster : handle)
    (er : eval_results_t) (name : string) (rest : list string)
    (metrics : list (string * list Q)) (ax : option Axes)
    (xlim ylim : option pyobj) (title xlabel ylabel : option string)
    (figsize : option pyobj) (grid : bool) (tr0 tr : list call) (ax' : Axes) :
  evals_of booster = Some er ->
  dict_get er name = Some metrics ->
  NoDup (map fst metrics) ->
  In name rest ->
  plot_metric booster None (Some (NamesSeq (name :: rest))) ax xlim ylim
    title xlabel ylabel figsize grid tr0 <> (tr, Ok ax').
Proof using MATPLOTLIB_INSTALLED.
  clear str_float format_fixed.
  intros Her Hms Hnd Hin H.
  apply plot_metric_ok in H
    as (er0 & name0 & rest0 & metrics0 & m & results & er' & tr1 & warn
        & series & xl & yl & Her0 & _ & Hnames & Hms0 & Hsel & _ & Hsn
        & Hseries & _).
  rewrite Her in Her0. injection Her0 as <-.
  simpl in Hnames. injection Hnames as <- <-.
  rewrite Hms in Hms0. injection Hms0 as <-.
  destruct Hsel as (Hlast & -> & _).
  rewrite <- Hsn in Hin. apply in_map_iff in Hin as ([n r] & Hn & Hin).
  simpl in Hn. subst n.
  destruct (Hseries _ _ Hin) as (ms & Hget & Hm).
  rewrite dict_get_set_eq in Hget. injection Hget as <-.
  rewrite (dict_get_popped _ _ _ Hnd Hlast) in Hm. discriminate.
Qed.

(** X14. [plot_metric] warns that it picks a metric exactly when no
    [metric] was given and the first dataset has more than one. *)
Theorem plot_metric_warning (booster : handle) (metric : option string)
    (dataset_names : option names_arg) (ax : option Axes)
    (xlim ylim : option pyobj) (title xlabel ylabel : option string)
    (figsize : option pyobj) (grid : bool) (tr : list call) (ax' : Axes) :
  run (plot_metric booster metric dataset_names ax xlim ylim title xlabel
         ylabel figsize grid) = (tr, Ok ax') ->
  exists er name rest metrics,
    evals_of booster = Some er
    /\ names_of dataset_names er = name :: rest
    /\ dict_get er name = Some metrics
    /\ (existsb is_warning tr = true
        <-> metric = None /\ (1 < length metrics)%nat).
Proof using MATPLOTLIB_INSTALLED.
  clear str_float format_fixed.
  unfold run. intros H.
  apply plot_metric_ok in H
    as (er & name & rest & metrics & m & results & er' & tr1 & warn & series
        & xl & yl & Her & Hax & Hnames & Hms & Hwarn & _ & _ & _ & ->).
  exists er, name, rest, metrics.
  split; [exact Her |]. split; [exact Hnames |]. split; [exact Hms |].
  rewrite !existsb_app.
  assert (existsb is_warning tr1 = false) as ->.
  { apply get_axes_calls in Hax as [[_ ->] | (_ & _ & ->)]; reflexivity. }
  assert (existsb is_warning
            (map (series_plot (range_ (length results))) series) = false)
    as ->.
  { induction series as [|sr series IH]; [reflexivity | exact IH]. }
  assert (forall setter text,
            (forall t, is_warning (setter t) = false) ->
            existsb is_warning (opt_calls setter text) = false) as Hopt.
  { intros setter [t|] Hs; [simpl; now rewrite Hs | reflexivity]. }
  rewrite !Hopt by reflexivity. simpl. rewrite !orb_false_r.
  destruct metric as [m0|].
  - destruct Hwarn as (_ & _ & _ & ->). simpl.
    split; [discriminate | intros [? _]; discriminate].
  - destruct Hwarn as (_ & _ & ->).
    destruct (1 <? length metrics)%nat eqn:E; simpl.
    + apply Nat.ltb_lt in E. tauto.
    + apply Nat.ltb_ge in E. split; [discriminate | intros [_ ?]; lia].
Qed.

(** X15. The y label of [plot_metric]: with [ylabel='auto'] it is the
    metric that is plotted, the one given or the one taken from the first
    dataset; any other text is set as it is. *)
Theorem plot_metric_ylabel (booster : handle) (metric : option string)
    (dataset_names : option names_arg) (ax : option Axes)
    (xlim ylim : option pyobj) (title xlabel : option string)
    (ylabel : string) (figsize : option pyobj) (grid : bool)
    (tr0 tr : list call) (ax' : Axes) :
  plot_metric booster metric dataset_names ax xlim ylim title xlabel
    (Some ylabel) figsize grid tr0 = (tr, Ok ax') ->
  exists er name rest metrics m,
    evals_of booster = Some er
    /\ names_of dataset_names er = name :: rest
    /\ dict_get er name = Some metrics
    /\ In m (map fst metrics)
    /\ (forall m0, metric = Some m0 -> m = m0)
    /\ (metric = None -> exists results, last metrics = Some (m, results))
    /\ In (SetYlabel (if String.eqb ylabel "auto" then m else ylabel)) tr.
Proof using MATPLOTLIB_INSTALLED.
  clear str_float format_fixed.
  intros H.
  apply plot_metric_ok in H
    as (er & name & rest & metrics & m & results & er' & tr1 & warn & series
        & xl & yl & Her & _ & Hnames & Hms & Hwarn & _ & _ & _ & ->).
  exists er, name, rest, metrics, m.
  split; [exact Her |]. split; [exact Hnames |]. split; [exact Hms |].
  split.
  { destruct metric as [m0|].
    - destruct Hwarn as (_ & Hm & _). eapply dict_get_in, Hm.
    - destruct Hwarn as (Hl & _).
      apply last_Some_elem_of, list_elem_of_In in Hl.
      apply (in_map fst) in Hl. exact Hl. }
  split.
  { intros m0 ->. now destruct Hwarn as (-> & _). }
  split.
  { intros ->. destruct Hwarn as (Hl & _). eauto. }
  rewrite !in_app_iff. do 7 right. left.
  destruct (String.eqb ylabel "auto"); left; reflexivity.
Qed.

(** ** More on the tree walker *)

Lemma node_names_app (a b : list stmt) :
  node_names (a ++ b) = node_names a ++ node_names b.
Proof. apply flat_map_app. Qed.

Lemma add_node_names show_info names precision (t : tree) :
  forall parent decision g g',
    add show_info names precision t parent decision g = Ok g' ->
    node_names (body g') = node_names (body g) ++ preorder_names t.
Proof.
  induction t as [li lv lc | si sf th dt sg iv ic l IHl r IHr];
    intros parent decision g g' H; simpl in H.
  - injection H as <-. rewrite edge_to_parent_body. simpl body.
    rewrite !node_names_app. destruct parent; simpl; now rewrite ?app_nil_r.
  - apply res_bind_ok in H as (label & _ & H).
    apply res_bind_ok in H as ([l_dec r_dec] & _ & H).
    apply res_bind_ok in H as (g1 & Hl & H).
    apply res_bind_ok in H as (g2 & Hr & H).
    injection H as <-.
    apply IHl in Hl. apply IHr in Hr.
    rewrite edge_to_parent_body, node_names_app, Hr, Hl. simpl body.
    rewrite node_names_app. simpl.
    rewrite <- !app_assoc. simpl.
    destruct parent; simpl; now rewrite ?app_nil_r.
Qed.

Lemma to_graphviz_kwargs (tree_info : tree_info_t) (show_info : list string)
    (feature_names : option (list string)) (precision : option Z)
    (kwargs : gmap string pyobj) (graph : Digraph) :
  _to_graphviz tree_info show_info feature_names precision kwargs = Ok graph ->
  graph_kwargs graph = kwargs.
Proof.
  unfold _to_graphviz. destruct GRAPHVIZ_INSTALLED; [| discriminate].
  intros H. now apply add_appends in H as (ss & _ & Hk & _).
Qed.

(** X16. The graph that [_to_graphviz] returns has the options it was
    given, and its node statements are the nodes of the tree, each once,
    a parent before its children and the left subtree before the right
    one; the first statement is the node of the root. *)
Theorem to_graphviz_nodes_in_preorder (tree_info : tree_info_t)
    (show_info : list string) (feature_names : option (list string))
    (precision : option Z) (kwargs : gmap string pyobj) (graph : Digraph) :
  _to_graphviz tree_info show_info feature_names precision kwargs = Ok graph ->
  graph_kwargs graph = kwargs
  /\ node_names (body graph) = preorder_names (tree_structure tree_info)
  /\ exists label rest,
       body graph = Node (node_name (tree_structure tree_info)) label :: rest.
Proof.
  intros H0. pose proof (to_graphviz_kwargs _ _ _ _ _ _ H0) as Hk.
  revert H0. unfold _to_graphviz.
  destruct GRAPHVIZ_INSTALLED; [| discriminate].
  intros H. split; [| split].
  - exact Hk.
  - now apply add_node_names in H.
  - destruct (tree_structure tree_info)
      as [li lv lc | si sf th dt sg iv ic l r]; simpl in H.
    + injection H as <-. simpl. eauto.
    + apply res_bind_ok in H as (label & _ & H).
      apply res_bind_ok in H as ([l_dec r_dec] & _ & H).
      apply res_bind_ok in H as (g1 & Hl & H).
      apply res_bind_ok in H as (g2 & Hr & H).
      injection H as <-.
      apply add_appends in Hl as (ssl & Hbl & _).
      apply add_appends in Hr as (ssr & Hbr & _).
      simpl. rewrite Hbr, Hbl. simpl. eauto.
Qed.

Lemma split_info_lines_known (show_info : list string) precision sg iv ic :
  forall label,
    split_info_lines (List.filter known_info show_info) precision sg iv ic label
    = split_info_lines show_info precision sg iv ic label.
Proof.
  unfold split_info_lines.
  induction show_info as [|info show_info IH]; intros label; [reflexivity |].
  simpl. unfold known_info at 1.
  destruct (String.eqb info "split_gain") eqn:E1,
           (String.eqb info "internal_value") eqn:E2,
           (String.eqb info "internal_count") eqn:E3,
           (String.eqb info "leaf_count") eqn:E4;
    simpl; rewrite ?E1, ?E2, ?E3; apply IH.
Qed.

Lemma leaf_label_known (show_info : list string) precision li lv lc :
  leaf_label (List.filter known_info show_info) precision li lv lc
  = leaf_label show_info precision li lv lc.
Proof.
  unfold leaf_label.
  replace (existsb (String.eqb "leaf_count")
             (List.filter known_info show_info))
    with (existsb (String.eqb "leaf_count") show_info); [reflexivity |].
  induction show_info as [|info show_info IH]; [reflexivity |].
  cbn [List.filter existsb].
  destruct (known_info info) eqn:K.
  - cbn [existsb]. now rewrite IH.
  - rewrite <- IH.
    replace (String.eqb "leaf_count" info) with false; [reflexivity |].
    rewrite String.eqb_sym. unfold known_info in K.
    destruct (String.eqb info "leaf_count"); [| reflexivity].
    now rewrite !orb_true_r in K.
Qed.

Lemma split_label_known (show_info : list string) names precision
    sf th sg iv ic :
  split_label (List.filter known_info show_info) names precision sf th sg iv ic
  = split_label show_info names precision sf th sg iv ic.
Proof.
  unfold split_label.
  destruct (match names with
            | Some l =>
                res_bind (getitem l sf)
                  (fun fname => Ok ("split_feature_name: " +:+ fname))
            | None => Ok ("split_feature_index: " +:+ pretty sf)
            end) as [label|e]; [| reflexivity].
  unfold res_bind. now rewrite split_info_lines_known.
Qed.

Lemma add_known (show_info : list string) names precision (t : tree) :
  forall parent decision g,
    add (List.filter known_info show_info) names precision t parent decision g
    = add show_info names precision t parent decision g.
Proof.
  induction t as [li lv lc | si sf th dt sg iv ic l IHl r IHr];
    intros parent decision g.
  - cbn [add]. now rewrite leaf_label_known.
  - cbn [add]. rewrite split_label_known.
    destruct (split_label show_info names precision sf th sg iv ic)
      as [label|e]; [| reflexivity].
    cbn [res_bind].
    destruct (decision_labels dt) as [[ld rd]|e]; [| reflexivity].
    cbn [res_bind]. rewrite IHl.
    destruct (add show_info names precision l _ _ _) as [g1|e];
      [| reflexivity].
    cbn [res_bind]. now rewrite IHr.
Qed.

(** X17. Entries of [show_info] other than [split_gain], [internal_value],
    [internal_count] and [leaf_count] have no effect on what [_to_graphviz]
    returns or raises. *)
Theorem to_graphviz_unknown_info_ignored (tree_info : tree_info_t)
    (show_info : list string) (feature_names : option (list string))
    (precision : option Z) (kwargs : gmap string pyobj) :
  _to_graphviz tree_info show_info feature_names precision kwargs
  = _to_graphviz tree_info (List.filter known_info show_info) feature_names
      precision kwargs.
Proof.
  unfold _to_graphviz. destruct GRAPHVIZ_INSTALLED; [| reflexivity].
  now rewrite add_known.
Qed.

(** ** More on create_tree_digraph and plot_tree *)

Lemma dict_get_app {V : Type} (a b : list (string * V)) (k : string) :
  dict_get (a ++ b) k
  = match dict_get a k with
    | Some v => Some v
    | None => dict_get b k
    end.
Proof.
  induction a as [|[k' v'] a IH]; simpl; [reflexivity |].
  destruct (String.eqb k' k); [reflexivity | exact IH].
Qed.

Lemma locals_get_frame_get (frame : list (string * option pyobj))
    (param_name : string) (param : option pyobj) (k : string) :
  k <> "param_name" -> k <> "param" ->
  locals_get frame param_name param k = frame_get frame k.
Proof.
  intros H1 H2. unfold locals_get, frame_get. rewrite dict_get_app.
  destruct (dict_get frame k); [reflexivity |].
  cbn [dict_get].
  destruct (String.eqb_spec "param_name" k); [congruence |].
  destruct (String.eqb_spec "param" k); [congruence | reflexivity].
Qed.

(** The loop over deprecated names: one warning per parameter that is set,
    and the options keep what they had and get, for a name they did not
    have, the value of the first deprecated parameter for that name. *)
Lemma fold_old_params_spec (frame : list (string * option pyobj))
    (names : list string) :
  (forall name, In name names -> name <> "param_name" /\ name <> "param") ->
  forall param kwargs tr,
  exists param' kwargs',
    fold_old_params frame names param kwargs tr
    = (tr ++ deprecation_warnings frame names, Ok (param', kwargs'))
    /\ forall k, kwargs' !! k
                 = match kwargs !! k with
                   | Some v => Some v
                   | None => deprecated_value frame names k
                   end.
Proof.
  induction names as [|name names IH]; intros Hn param kwargs tr.
  - exists param, kwargs. simpl. unfold ret. rewrite app_nil_r.
    split; [reflexivity |]. intros k. now destruct (kwargs !! k).
  - assert (forall n, In n names -> n <> "param_name" /\ n <> "param") as Hn'
      by (intros n Hin; apply Hn; now right).
    destruct (Hn name (or_introl eq_refl)) as [H1 H2].
    cbn [fold_old_params].
    rewrite (locals_get_frame_get frame name param name H1 H2).
    unfold deprecation_warnings. cbn [flat_map deprecated_value].
    fold (deprecation_warnings frame names).
    destruct (frame_get frame name) as [v|].
    + unfold bind, emit.
      destruct (IH Hn' (Some v)
                  (match kwargs !! drop4 name with
                   | Some _ => kwargs
                   | None => <[drop4 name:=v]> kwargs
                   end)
                  (tr ++ [Warn "LGBMDeprecationWarning"
                            (deprecation_message name)]))
        as (p' & k' & -> & Hk).
      exists p', k'. split; [now rewrite <- app_assoc |].
      intros k. rewrite Hk.
      destruct (String.eqb_spec (drop4 name) k) as [<-|Hne].
      * destruct (kwargs !! drop4 name) as [w|] eqn:E.
        -- now rewrite E.
        -- now rewrite lookup_insert_eq.
      * destruct (kwargs !! drop4 name) as [w|] eqn:E; [reflexivity |].
        now rewrite lookup_insert_ne.
    + destruct (IH Hn' None kwargs tr) as (p' & k' & -> & Hk).
      exists p', k'. split; [reflexivity | exact Hk].
Qed.

Lemma digraph_old_names_ok (name : string) :
  In name digraph_old_names -> name <> "param_name" /\ name <> "param".
Proof.
  intros H. simpl in H.
  repeat (destruct H as [<- | H]; [split; discriminate |]). destruct H.
Qed.


(** An unsupported handle is refused first. *)
Lemma create_tree_digraph_unsupported (booster : handle) (e : exn)
    (tree_index : Z) (show_info : option (list string))
    (precision : option Z) (old : old_params) (kwargs : gmap string pyobj)
    (tr0 : list call) :
  booster_of booster = Raise e ->
  create_tree_digraph booster tree_index show_info precision old kwargs tr0
  = (tr0, Raise e).
Proof.
  intros Hb. unfold create_tree_digraph.
  unfold bind at 1. unfold lift at 1. rewrite Hb. reflexivity.
Qed.

(** [create_tree_digraph] on a supported handle, with the warnings and the
    options spelled out. *)
Lemma create_tree_digraph_steps (booster : handle) (b : Booster)
    (tree_index : Z) (show_info : option (list string))
    (precision : option Z) (old : old_params) (kwargs : gmap string pyobj)
    (tr0 : list call) :
  booster_of booster = Ok b ->
  let frame := create_tree_digraph_frame tree_index show_info precision old in
  exists kwargs',
    (forall k, kwargs' !! k
               = match kwargs !! k with
                 | Some v => Some v
                 | None => deprecated_value frame digraph_old_names k
                 end)
    /\ create_tree_digraph booster tree_index show_info precision old kwargs tr0
       = (tr0 ++ deprecation_warnings frame digraph_old_names ++ [DumpModel],
          if tree_index <? Z.of_nat (length (tree_info (dump_model b)))
          then res_bind (getitem (tree_info (dump_model b)) tree_index)
                 (fun ti => _to_graphviz ti
                              (match show_info with Some l => l | None => [] end)
                              (feature_names (dump_model b)) precision kwargs')
          else Raise (IndexError "tree_index is out of range.")).
Proof.
  intros Hb frame. unfold create_tree_digraph.
  destruct (fold_old_params_spec frame digraph_old_names digraph_old_names_ok
              None kwargs tr0) as (param & kwargs' & Hfold & Hk).
  exists kwargs'. split; [exact Hk |].
  unfold bind at 1. unfold lift at 1. rewrite Hb.
  unfold bind at 1. fold frame. fold digraph_old_names. rewrite Hfold.
  unfold frame at 1. rewrite create_tree_digraph_no_strict.
  simpl truthy. cbv iota.
  unfold bind, ret, emit, lift, raise. rewrite <- app_assoc.
  destruct (tree_index <? Z.of_nat (length (tree_info (dump_model b))));
    [| reflexivity].
  destruct (getitem (tree_info (dump_model b)) tree_index); reflexivity.
Qed.

(** X18. A tree index that is not below the number of trees gets the
    IndexError of [create_tree_digraph]. One below minus the number of
    trees passes that test and gets an IndexError from the indexing of the
    list of trees, which is not the one of [create_tree_digraph]: it is the
    list's [list index out of range] when the index fits the index type of
    the interpreter. In both cases the deprecated parameters were handled
    and the model was dumped before. *)
Theorem create_tree_digraph_index_errors (booster : handle) (b : Booster)
    (tree_index : Z) (show_info : option (list string))
    (precision : option Z) (old : old_params) (kwargs : gmap string pyobj)
    (tr0 : list call) :
  booster_of booster = Ok b ->
  let n := Z.of_nat (length (tree_info (dump_model b))) in
  let frame := create_tree_digraph_frame tree_index show_info precision old in
  let calls := deprecation_warnings frame digraph_old_names ++ [DumpModel] in
  (n <= tree_index ->
   create_tree_digraph booster tree_index show_info precision old kwargs tr0
   = (tr0 ++ calls, Raise (IndexError "tree_index is out of range.")))
  /\ (tree_index < - n ->
      (exists message,
         create_tree_digraph booster tree_index show_info precision old kwargs
           tr0
         = (tr0 ++ calls, Raise (IndexError message))
         /\ message <> "tree_index is out of range.")
      /\ (index_sized tree_index = true ->
          create_tree_digraph booster tree_index show_info precision old
            kwargs tr0
          = (tr0 ++ calls, Raise (IndexError "list index out of range")))).
Proof.
  intros Hb n frame calls.
  destruct (create_tree_digraph_steps booster b tree_index show_info precision
              old kwargs tr0 Hb) as (kwargs' & _ & Hrun).
  fold n in Hrun. split; intros Hi; rewrite Hrun.
  - replace (tree_index <? n) with false
      by (symmetry; apply Z.ltb_ge; exact Hi).
    reflexivity.
  - replace (tree_index <? n) with true by (symmetry; apply Z.ltb_lt; lia).
    unfold getitem. fold n.
    replace (tree_index <? 0) with true by (symmetry; apply Z.ltb_lt; lia).
    replace (0 <=? tree_index + n) with false
      by (symmetry; apply Z.leb_gt; lia).
    split.
    + exists "list index out of range". split; [reflexivity | discriminate].
    + intros _. reflexivity.
Qed.

(** X19. With [0 <= tree_index < n] for a model of n trees,
    [create_tree_digraph] walks the tree at that position: what it returns
    or raises is what [_to_graphviz] does on it, with the options that the
    loop over the deprecated parameters leaves. *)
Theorem create_tree_digraph_selects_tree (booster : handle) (b : Booster)
    (tree_index : Z) (show_info : option (list string))
    (precision : option Z) (old : old_params) (kwargs : gmap string pyobj)
    (tr0 : list call) :
  booster_of booster = Ok b ->
  0 <= tree_index < Z.of_nat (length (tree_info (dump_model b))) ->
  let frame := create_tree_digraph_frame tree_index show_info precision old in
  exists kwargs' ti,
    tree_info (dump_model b) !! Z.to_nat tree_index = Some ti
    /\ (forall k, kwargs' !! k
                  = match kwargs !! k with
                    | Some v => Some v
                    | None => deprecated_value frame digraph_old_names k
                    end)
    /\ create_tree_digraph booster tree_index show_info precision old kwargs tr0
       = (tr0 ++ deprecation_warnings frame digraph_old_names ++ [DumpModel],
          _to_graphviz ti (match show_info with Some l => l | None => [] end)
            (feature_names (dump_model b)) precision kwargs').
Proof.
  intros Hb Hi frame.
  destruct (create_tree_digraph_steps booster b tree_index show_info precision
              old kwargs tr0 Hb) as (kwargs' & Hk & Hrun).
  destruct (tree_info (dump_model b) !! Z.to_nat tree_index) as [ti|] eqn:E.
  - exists kwargs', ti. split; [reflexivity |]. split; [exact Hk |].
    rewrite Hrun.
    replace (tree_index <? Z.of_nat (length (tree_info (dump_model b))))
      with true by (symmetry; apply Z.ltb_lt; lia).
    unfold getitem.
    replace (tree_index <? 0) with false by (symmetry; apply Z.ltb_ge; lia).
    replace ((0 <=? tree_index)
             && (tree_index <? Z.of_nat (length (tree_info (dump_model b)))))
      with true
      by (symmetry; apply andb_true_iff; split;
          [apply Z.leb_le | apply Z.ltb_lt]; lia).
    rewrite E. reflexivity.
  - apply lookup_ge_None in E. lia.
Qed.

Lemma deprecated_value_none (frame : list (string * option pyobj))
    (names : list string) (k : string) :
  (forall name, In name names -> drop4 name <> k) ->
  deprecated_value frame names k = None.
Proof.
  induction names as [|name names IH]; intros H; [reflexivity |].
  simpl. rewrite IH by (intros n Hn; apply H; now right).
  destruct (frame_get frame name); [| reflexivity].
  destruct (String.eqb_spec (drop4 name) k) as [E|E]; [| reflexivity].
  now destruct (H name (or_introl eq_refl)).
Qed.

Lemma deprecated_value_unique (frame : list (string * option pyobj))
    (names : list string) (name : string) :
  NoDup (map drop4 names) -> In name names ->
  deprecated_value frame names (drop4 name) = frame_get frame name.
Proof.
  induction names as [|n names IH]; intros Hnd Hin; [destruct Hin |].
  simpl in Hnd. apply NoDup_cons in Hnd as [Hnin Hnd].
  simpl. destruct Hin as [-> | Hin].
  - rewrite String.eqb_refl.
    destruct (frame_get frame name); [reflexivity |].
    apply deprecated_value_none. intros n' Hn' E. apply Hnin.
    rewrite <- E. apply list_elem_of_In. now apply in_map.
  - rewrite (IH Hnd Hin).
    destruct (String.eqb_spec (drop4 n) (drop4 name)) as [E|E].
    + exfalso. apply Hnin. rewrite E. apply list_elem_of_In.
      now apply in_map.
    + now destruct (frame_get frame n).
Qed.

Lemma distinct_NoDup (l : list string) : distinct l = true -> NoDup l.
Proof.
  induction l as [|x l IH]; simpl; intros H; [constructor |].
  apply andb_true_iff in H as [Hx Hl].
  apply NoDup_cons. split; [| auto].
  intros Hin. apply list_elem_of_In in Hin.
  apply negb_true_iff in Hx.
  assert (existsb (String.eqb x) l = true) as E; [| congruence].
  apply existsb_exists. exists x. split; [exact Hin | apply String.eqb_refl].
Qed.

(** The deprecated parameters of the loop give eleven different options. *)
Lemma digraph_old_names_distinct : NoDup (map drop4 digraph_old_names).
Proof. apply distinct_NoDup. vm_compute. reflexivity. Qed.

(** X20. The options of the graph that [create_tree_digraph] returns: an
    option given in [kwargs] is kept whatever the deprecated parameters
    say; an option that [kwargs] does not have and that is the name,
    without [old_], of one of the eleven deprecated parameters of the loop
    has the value of that parameter, when it is set; and no other option
    is added. *)
Theorem create_tree_digraph_options (booster : handle) (tree_index : Z)
    (show_info : option (list string)) (precision : option Z)
    (old : old_params) (kwargs : gmap string pyobj) (tr0 tr : list call)
    (graph : Digraph) :
  create_tree_digraph booster tree_index show_info precision old kwargs tr0
  = (tr, Ok graph) ->
  let frame := create_tree_digraph_frame tree_index show_info precision old in
  (forall k v, kwargs !! k = Some v -> graph_kwargs graph !! k = Some v)
  /\ (forall name, In name digraph_old_names ->
        kwargs !! drop4 name = None ->
        graph_kwargs graph !! drop4 name = frame_get frame name)
  /\ (forall k, (forall name, In name digraph_old_names -> drop4 name <> k) ->
        graph_kwargs graph !! k = kwargs !! k).
Proof.
  intros H frame.
  destruct (booster_of booster) as [b|e] eqn:Hb.
  2:{ rewrite (create_tree_digraph_unsupported _ _ _ _ _ _ _ _ Hb) in H.
      discriminate. }
  destruct (create_tree_digraph_steps booster b tree_index show_info precision
              old kwargs tr0 Hb) as (kwargs' & Hk & Hrun).
  rewrite Hrun in H. injection H as _ H.
  destruct (tree_index <? Z.of_nat (length (tree_info (dump_model b))));
    [| discriminate].
  destruct (getitem (tree_info (dump_model b)) tree_index) as [ti|e];
    [| discriminate].
  cbn [res_bind] in H.
  apply to_graphviz_kwargs in H as ->.
  split; [| split].
  - intros k v Hv. now rewrite Hk, Hv.
  - intros name Hin Hnone. rewrite Hk, Hnone.
    apply deprecated_value_unique; [| exact Hin].
    exact digraph_old_names_distinct.
  - intros k Hother. rewrite Hk.
    destruct (kwargs !! k); [reflexivity |].
    now apply deprecated_value_none.
Qed.









Lemma existsb_map_false {A B : Type} (f : B -> bool) (g : A -> B)
    (l : list A) :
  (forall x, f (g x) = false) -> existsb f (map g l) = false.
Proof.
  intros H. induction l as [|x l IH]; simpl; [reflexivity |].
  now rewrite H, IH.
Qed.

Lemma existsb_opt_calls (f : call -> bool) (setter : string -> call)
    (text : option string) :
  (forall t, f (setter t) = false) -> existsb f (opt_calls setter text) = false.
Proof.
  intros H. destruct text as [t|]; simpl; [now rewrite H | reflexivity].
Qed.

(** X22. When the caller gives the axes, the three plotters draw on them
    and return them: no figure is created, and the [figsize] is not even
    looked at, so one that is not a tuple of 2 elements is accepted. *)
Theorem plotters_use_given_axes (a : Axes) (figsize1 figsize2 : option pyobj) :
  (forall booster height xlim ylim title xlabel ylabel importance_type
          max_num_features ignore_zero grid precision kwargs,
     plot_importance booster (Some a) height xlim ylim title xlabel ylabel
       importance_type max_num_features ignore_zero figsize1 grid precision
       kwargs
     = plot_importance booster (Some a) height xlim ylim title xlabel ylabel
         importance_type max_num_features ignore_zero figsize2 grid
         precision kwargs
     /\ forall tr ax',
          run (plot_importance booster (Some a) height xlim ylim title xlabel
                 ylabel importance_type max_num_features ignore_zero figsize1
                 grid precision kwargs) = (tr, Ok ax') ->
          ax' = a /\ existsb is_subplots tr = false)
  /\ (forall booster feature bins width_coef xlim ylim title xlabel ylabel
             grid kwargs,
        plot_split_value_histogram booster feature bins (Some a) width_coef
          xlim ylim title xlabel ylabel figsize1 grid kwargs
        = plot_split_value_histogram booster feature bins (Some a) width_coef
            xlim ylim title xlabel ylabel figsize2 grid kwargs
        /\ forall tr ax',
             run (plot_split_value_histogram booster feature bins (Some a)
                    width_coef xlim ylim title xlabel ylabel figsize1 grid
                    kwargs) = (tr, Ok ax') ->
             ax' = a /\ existsb is_subplots tr = false)
  /\ (forall booster metric dataset_names xlim ylim title xlabel ylabel grid,
        plot_metric booster metric dataset_names (Some a) xlim ylim title
          xlabel ylabel figsize1 grid
        = plot_metric booster metric dataset_names (Some a) xlim ylim title
            xlabel ylabel figsize2 grid
        /\ forall tr ax',
             run (plot_metric booster metric dataset_names (Some a) xlim ylim
                    title xlabel ylabel figsize1 grid) = (tr, Ok ax') ->
             ax' = a /\ existsb is_subplots tr = false).
Proof.
  split; [| split].
  - intros. split; [reflexivity |]. intros tr ax' H. unfold run in H.
    apply plot_importance_ok in H
      as (b & tr1 & xl & yl & _ & _ & _ & _ & Hax & _ & _ & ->).
    apply get_axes_calls in Hax as [[Ha ->] | [Ha _]]; [| discriminate].
    injection Ha as <-. split; [reflexivity |].
    rewrite !existsb_app, existsb_map_false, !existsb_opt_calls
      by reflexivity.
    reflexivity.
  - intros. split; [reflexivity |]. intros tr ax' H. unfold run in H.
    apply plot_split_value_histogram_ok in H
      as (b & tr1 & e1 & e0 & xl & yl & _ & _ & _ & _ & Hax & _ & _ & ->).
    apply get_axes_calls in Hax as [[Ha ->] | [Ha _]]; [| discriminate].
    injection Ha as <-. split; [reflexivity |].
    rewrite !existsb_app, !existsb_opt_calls by reflexivity.
    reflexivity.
  - intros. split; [reflexivity |]. intros tr ax' H. unfold run in H.
    apply plot_metric_ok in H
      as (er & name & rest & metrics & m & results & er' & tr1 & warn
          & series & xl & yl & _ & Hax & _ & _ & Hwarn & _ & _ & _ & ->).
    apply get_axes_calls in Hax as [[Ha ->] | [Ha _]]; [| discriminate].
    injection Ha as <-. split; [reflexivity |].
    rewrite !existsb_app, existsb_map_false, !existsb_opt_calls
      by reflexivity.
    assert (existsb is_subplots warn = false) as ->.
    { destruct metric; [now destruct Hwarn as (_ & _ & _ & ->) |].
      destruct Hwarn as (_ & _ & ->).
      destruct (1 <? length metrics)%nat; reflexivity. }
    reflexivity.
Qed.

End Plotting.

(** ** Order of the checks *)

Section Order.

Variable str_float : Q -> string.
Variable format_fixed : Q -> Z -> string.

(** C4 (as the code has it). Without matplotlib each of the four plotting
    functions raises its ImportError at once, and without graphviz
    [_to_graphviz] does; [create_tree_digraph] has no check of its own: an
    unsupported booster gets the TypeError, and the ImportError of
    [_to_graphviz] comes after the deprecated parameters were handled, the
    model was dumped and the tree index was tested. *)
Theorem missing_backend_errors :
  (forall booster ax height xlim ylim title xlabel ylabel importance_type
          max_num_features ignore_zero figsize grid precision kwargs tr0,
     plot_importance false str_float format_fixed booster ax height xlim ylim
       title xlabel ylabel importance_type max_num_features ignore_zero
       figsize grid precision kwargs tr0
     = (tr0, Raise (ImportError
                      "You must install matplotlib to plot importance.")))
  /\ (forall booster feature bins ax width_coef xlim ylim title xlabel ylabel
             figsize grid kwargs tr0,
        plot_split_value_histogram false booster feature bins ax width_coef
          xlim ylim title xlabel ylabel figsize grid kwargs tr0
        = (tr0, Raise (ImportError
             "You must install matplotlib to plot split value histogram.")))
  /\ (forall booster metric dataset_names ax xlim ylim title xlabel ylabel
             figsize grid tr0,
        plot_metric false booster metric dataset_names ax xlim ylim title
          xlabel ylabel figsize grid tr0
        = (tr0, Raise (ImportError
                         "You must install matplotlib to plot metric.")))
  /\ (forall graphviz booster ax tree_index figsize old_graph_attr
             old_node_attr old_edge_attr show_info precision kwargs tr0,
        plot_tree false graphviz str_float format_fixed booster ax tree_index
          figsize old_graph_attr old_node_attr old_edge_attr show_info
          precision kwargs tr0
        = (tr0, Raise (ImportError
                         "You must install matplotlib to plot tree.")))
  /\ (forall tree_info show_info feature_names precision kwargs,
        _to_graphviz false str_float format_fixed tree_info show_info
          feature_names precision kwargs
        = Raise (ImportError "You must install graphviz to plot tree."))
  /\ (forall booster e tree_index show_info precision old kwargs tr0,
        booster_of booster = Raise e ->
        create_tree_digraph false str_float format_fixed booster tree_index
          show_info precision old kwargs tr0
        = (tr0, Raise e))
  /\ (forall booster tree_index show_info precision old kwargs tr0 tr message,
        create_tree_digraph false str_float format_fixed booster tree_index
          show_info precision old kwargs tr0
        = (tr, Raise (ImportError message)) ->
        exists b ws,
          booster_of booster = Ok b
          /\ (forall c, In c ws -> is_deprecation_warning c)
          /\ tr = tr0 ++ ws ++ [DumpModel]
          /\ tree_index < Z.of_nat (length (tree_info (dump_model b)))).
Proof.
  do 5 (split; [reflexivity |]).
  split.
  - intros booster e tree_index show_info precision old kwargs tr0 Hb.
    now apply create_tree_digraph_unsupported.
  - intros booster tree_index show_info precision old kwargs tr0 tr message H.
    destruct (booster_of booster) as [b|e] eqn:Hb.
    + exists b.
      destruct (create_tree_digraph_run false str_float format_fixed booster b
                  tree_index show_info precision old kwargs tr0 Hb)
        as (ws & kwargs' & Hws & Hrun).
      rewrite Hrun in H. injection H as <- H.
      exists ws. split; [reflexivity |]. split; [exact Hws |].
      split; [reflexivity |].
      destruct (tree_index <? Z.of_nat (length (tree_info (dump_model b))))
        eqn:E; [now apply Z.ltb_lt | discriminate].
    + rewrite (create_tree_digraph_unsupported _ _ _ _ _ _ _ _ _ _ _ Hb) in H.
      destruct booster; simpl in Hb; try discriminate Hb;
        injection Hb as <-; discriminate H.
Qed.


End Order.

(** ** The functions on the sample inputs *)


(** C4, as stated, fails: with graphviz unavailable, [create_tree_digraph]
    on an unsupported booster raises the TypeError of the booster check;
    on a supported booster it warns about a deprecated parameter and
    dumps the model before the ImportError; and a tree index that is too
    large gets the IndexError, not the ImportError. *)
Lemma create_tree_digraph_import_error_is_late :
  run (create_tree_digraph false sample_str sample_fixed HOther 0 None None
         no_old_params ∅)
  = ([], Raise (TypeError "booster must be Booster or LGBMModel."))
  /\ run (create_tree_digraph false sample_str sample_fixed
            (HBooster demo_booster) 0 None None name_only ∅)
     = ([Warn "LGBMDeprecationWarning" (deprecation_message "old_name");
         DumpModel],
        Raise (ImportError "You must install graphviz to plot tree."))
  /\ run (create_tree_digraph false sample_str sample_fixed
            (HBooster demo_booster) 2 None None no_old_params ∅)
     = ([DumpModel], Raise (IndexError "tree_index is out of range."))
  /\ snd (run (create_tree_digraph false sample_str sample_fixed HOther 0
                 None None no_old_params ∅))
     <> Raise (ImportError "You must install graphviz to plot tree.").
Proof. repeat split; try (vm_compute; reflexivity). discriminate. Qed.


(** C6, on the code: [old_strict=True] changes nothing. The call returns
    what it returns without it, no warning is made, and the options of the
    graph have no [strict]; [old_name], handled by the loop, is warned
    about and becomes the option [name]. *)
Theorem old_strict_is_not_folded :
  run (create_tree_digraph true sample_str sample_fixed
         (HBooster demo_booster) 0 None None strict_only ∅)
  = run (create_tree_digraph true sample_str sample_fixed
           (HBooster demo_booster) 0 None None no_old_params ∅)
  /\ fst (run (create_tree_digraph true sample_str sample_fixed
                 (HBooster demo_booster) 0 None None strict_only ∅))
     = [DumpModel]
  /\ (exists graph,
        snd (run (create_tree_digraph true sample_str sample_fixed
                    (HBooster demo_booster) 0 None None strict_only ∅))
        = Ok graph
        /\ graph_kwargs graph !! "strict" = None)
  /\ fst (run (create_tree_digraph true sample_str sample_fixed
                 (HBooster demo_booster) 0 None None name_only ∅))
     = [Warn "LGBMDeprecationWarning" (deprecation_message "old_name");
        DumpModel]
  /\ (exists graph,
        snd (run (create_tree_digraph true sample_str sample_fixed
                    (HBooster demo_booster) 0 None None name_only ∅))
        = Ok graph
        /\ graph_kwargs graph !! "name" = Some (OStr "g")).
Proof.
  split; [vm_compute; reflexivity |].
  split; [vm_compute; reflexivity |].
  split; [eexists; split; vm_compute; reflexivity |].
  split; [vm_compute; reflexivity |].
  eexists; split; vm_compute; reflexivity.
Qed.

(** *** The theorems at the sample inputs *)

Lemma to_graphviz_node_and_edge_counts_witness :
  exists graph,
    _to_graphviz true sample_str sample_fixed {| tree_structure := stump |}
      [] None None ∅ = Ok graph
    /\ node_count graph = (internal_nodes stump + leaf_nodes stump)%nat
    /\ edge_count graph = (internal_nodes stump * 2)%nat
    /\ forall tail head label,
         In (Edge tail head label) (body graph) -> child_edge stump tail head.
Proof.
  apply (to_graphviz_node_and_edge_counts true sample_str sample_fixed
           {| tree_structure := stump |} [] None None ∅); reflexivity.
Defined.


Lemma plot_importance_truncation_witness :
  let tr := fst (run (plot_importance true sample_str sample_fixed
                        (HBooster demo_booster) None 0.2 None None None None
                        None "split" (Some 1) true None true None ∅)) in
  exists b dropped kept,
    booster_of (HBooster demo_booster) = Ok b
    /\ let pairs := zip_ (feature_name b) (feature_importance b "split") in
       let candidates :=
         List.filter (fun x => Qltb 0 (snd x)) (sorted_by_score pairs) in
       Permutation (sorted_by_score pairs) pairs
       /\ StronglySorted score_le (sorted_by_score pairs)
       /\ candidates = dropped ++ kept
       /\ kept = last_items 1 candidates
       /\ length kept = Nat.min (Z.to_nat 1) (length candidates)
       /\ (forall d k, In d dropped -> In k kept -> score_le d k)
       /\ In (Barh (range_ (length kept)) (map snd kept) 0.2 ∅) tr
       /\ In (SetYticklabels (map fst kept)) tr.
Proof.
  intros tr.
  apply (plot_importance_truncation true sample_str sample_fixed
           (HBooster demo_booster) None 0.2 None None None None None "split"
           1 true None true None ∅ [] tr (NewAxes None));
    [lia | vm_compute; reflexivity].
Defined.

Lemma plot_importance_all_zero_scores_witness :
  run (plot_importance true sample_str sample_fixed (HBooster zero_booster)
         None 0.2 None None None None None "split" None true None true None ∅)
  = ([FeatureImportance "split"; FeatureName],
     Raise (ValueError "not enough values to unpack (expected 2, got 0)"))
  /\ existsb is_rendering [FeatureImportance "split"; FeatureName] = false.
Proof.
  apply (plot_importance_all_zero_scores true sample_str sample_fixed
           (HBooster zero_booster) zero_booster None 0.2 None None None None
           None "split" None None true None ∅ []);
    [reflexivity | reflexivity | discriminate |].
  repeat constructor; reflexivity.
Defined.

Lemma plot_split_value_histogram_bars_witness :
  let tr := fst (run (plot_split_value_histogram true (HBooster demo_booster)
                        (FIndex 0) None None 0.8 None None None None None
                        None true ∅)) in
  exists b e0 e1 centred,
    booster_of (HBooster demo_booster) = Ok b
    /\ let hist := fst (get_split_value_histogram b (FIndex 0) None) in
       let e := snd (get_split_value_histogram b (FIndex 0) None) in
       e !! 0%nat = Some e0 /\ e !! 1%nat = Some e1
       /\ In (Bar centred hist (0.8 * (e1 - e0))%Q ∅) tr
       /\ length centred = (length e - 1)%nat
       /\ forall (i : nat) (a c : Q),
            e !! i = Some a -> e !! S i = Some c ->
            centred !! i = Some ((a + c) / 2)%Q.
Proof.
  intros tr.
  apply (plot_split_value_histogram_bars true (HBooster demo_booster)
           (FIndex 0) None None 0.8 None None None None None None true ∅
           [] tr (NewAxes None)).
  vm_compute; reflexivity.
Defined.


Lemma create_tree_digraph_negative_index_witness :
  exists ws kwargs' ti,
    tree_info (dump_model demo_booster)
      !! Z.to_nat (Z.of_nat (length (tree_info (dump_model demo_booster)))
                   + (-1))
    = Some ti
    /\ (forall c, In c ws -> is_deprecation_warning c)
    /\ create_tree_digraph true sample_str sample_fixed (HBooster demo_booster)
         (-1) None None no_old_params ∅ []
       = ([] ++ ws ++ [DumpModel],
          _to_graphviz true sample_str sample_fixed ti [] 
            (feature_names (dump_model demo_booster)) None kwargs')
    /\ snd (create_tree_digraph true sample_str sample_fixed
              (HBooster demo_booster) (-1) None None no_old_params ∅ [])
       <> Raise (IndexError "tree_index is out of range.").
Proof.
  apply (create_tree_digraph_negative_index true sample_str sample_fixed
           (HBooster demo_booster) demo_booster (-1) None None no_old_params
           ∅ []); [reflexivity | simpl; lia].
Defined.

Lemma missing_backend_errors_witness :
  run (create_tree_digraph false sample_str sample_fixed HOther 0 None None
         no_old_params ∅)
  = ([], Raise (TypeError "booster must be Booster or LGBMModel.")).
Proof.
  destruct (missing_backend_errors sample_str sample_fixed)
    as (_ & _ & _ & _ & _ & H & _).
  apply (H HOther). reflexivity.
Defined.


(** *** The further theorems at the sample inputs *)

Lemma plot_importance_bars_positive_witness :
  let tr := fst (run (plot_importance true sample_str sample_fixed
                        (HBooster demo_booster) None 0.2 None None None None
                        None "split" None true None true None ∅)) in
  exists ylocs values,
    In (Barh ylocs values 0.2 ∅) tr
    /\ values <> []
    /\ forall v, In v values -> (0 < v)%Q.
Proof.
  intros tr.
  apply (plot_importance_bars_positive true sample_str sample_fixed
           (HBooster demo_booster) None 0.2 None None None None None "split"
           None None true None ∅ [] tr (NewAxes None)).
  vm_compute; reflexivity.
Defined.

Lemma plot_importance_bars_ascending_witness :
  let tr := fst (run (plot_importance true sample_str sample_fixed
                        (HBooster demo_booster) None 0.2 None None None None
                        None "split" None false None true None ∅)) in
  exists b kept,
    booster_of (HBooster demo_booster) = Ok b
    /\ In (Barh (range_ (length kept)) (map snd kept) 0.2 ∅) tr
    /\ In (SetYticks (range_ (length kept))) tr
    /\ In (SetYticklabels (map fst kept)) tr
    /\ StronglySorted score_le kept
    /\ forall p, In p kept ->
         In p (zip_ (feature_name b) (feature_importance b "split")).
Proof.
  intros tr.
  apply (plot_importance_bars_ascending true sample_str sample_fixed
           (HBooster demo_booster) None 0.2 None None None None None "split"
           None false None true None ∅ [] tr (NewAxes None)).
  vm_compute; reflexivity.
Defined.

Lemma plot_importance_all_features_witness :
  let tr := fst (run (plot_importance true sample_str sample_fixed
                        (HBooster demo_booster) None 0.2 None None None None
                        None "split" (Some 0) true None true None ∅)) in
  exists b kept,
    booster_of (HBooster demo_booster) = Ok b
    /\ In (Barh (range_ (length kept)) (map snd kept) 0.2 ∅) tr
    /\ Permutation kept
         (List.filter (fun x => Qltb 0 (snd x))
            (zip_ (feature_name b) (feature_importance b "split"))).
Proof.
  intros tr.
  apply (plot_importance_all_features true sample_str sample_fixed
           (HBooster demo_booster) None 0.2 None None None None None "split"
           (Some 0) true None true None ∅ [] tr (NewAxes None)).
  - intros n H. injection H as <-. lia.
  - vm_compute; reflexivity.
Defined.

Lemma plot_importance_default_ranges_witness :
  let tr := fst (run (plot_importance true sample_str sample_fixed
                        (HBooster demo_booster) None 0.2 None None None None
                        None "split" None true None true None ∅)) in
  exists ylocs values M,
    In (Barh ylocs values 0.2 ∅) tr
    /\ maximum_of M values
    /\ In (SetXlim (OTuple [0%Q; (M * 1.1)%Q])) tr
    /\ In (SetYlim (OTuple [(-1)%Q; inject_Z (Z.of_nat (length values))])) tr.
Proof.
  intros tr.
  apply (plot_importance_default_ranges true sample_str sample_fixed
           (HBooster demo_booster) None 0.2 None None None "split" None true
           None true None ∅ [] tr (NewAxes None)).
  vm_compute; reflexivity.
Defined.

Lemma plot_importance_empty_witness :
  run (plot_importance true sample_str sample_fixed
         (HBooster (sample_booster [] [] [] [] [])) None 0.2 None None None
         None None "split" None true None true None ∅)
  = ([FeatureImportance "split"; FeatureName],
     Raise (ValueError "Booster's feature_importance is empty.")).
Proof.
  apply (plot_importance_empty true sample_str sample_fixed
           (HBooster (sample_booster [] [] [] [] []))
           (sample_booster [] [] [] [] []) None 0.2 None None None None None
           "split" None true None true None ∅ []); reflexivity.
Defined.

Lemma plot_importance_texts_witness :
  let tr := fst (run (plot_importance true sample_str sample_fixed
                        (HBooster demo_booster) None 0.2 None None None None
                        None "gain" None true None true (Some 2) ∅)) in
  exists ylocs values,
    In (Barh ylocs values 0.2 ∅) tr
    /\ forall (i : nat) (v : Q),
         values !! i = Some v ->
         In (Text (v + 1)%Q (Z.of_nat i)
               (if String.eqb "gain" "gain"
                then PStr (_float2str sample_str sample_fixed (PNum v) (Some 2))
                else PNum v)) tr.
Proof.
  intros tr.
  apply (plot_importance_texts true sample_str sample_fixed
           (HBooster demo_booster) None 0.2 None None None None None "gain"
           None true None true (Some 2) ∅ [] tr (NewAxes None)).
  vm_compute; reflexivity.
Defined.

Lemma plot_split_value_histogram_unused_feature_witness :
  run (plot_split_value_histogram true (HBooster zero_booster) (FName "A")
         None None 0.8 None None None None None None true ∅)
  = ([GetSplitValueHistogram (FName "A") None],
     Raise (ValueError
              ("Cannot plot split value histogram, because feature "
               +:+ str_feature (FName "A") +:+ " was not used in splitting"))).
Proof.
  apply (plot_split_value_histogram_unused_feature true
           (HBooster zero_booster) zero_booster (FName "A") None None 0.8
           None None None None None None true ∅ []);
    [reflexivity | reflexivity |].
  repeat constructor.
Defined.

Lemma plot_split_value_histogram_default_ranges_witness :
  let tr := fst (run (plot_split_value_histogram true (HBooster demo_booster)
                        (FIndex 0) None None 0.8 None None None None None
                        None true ∅)) in
  exists b efirst elast M,
    booster_of (HBooster demo_booster) = Ok b
    /\ let hist := fst (get_split_value_histogram b (FIndex 0) None) in
       let e := snd (get_split_value_histogram b (FIndex 0) None) in
       head e = Some efirst /\ last e = Some elast
       /\ maximum_of M (map inject_Z hist)
       /\ In (SetXlim (OTuple [(efirst - (elast - efirst) * 0.2)%Q;
                               (elast + (elast - efirst) * 0.2)%Q])) tr
       /\ In (SetYlim (OTuple [0%Q; (M * 1.1)%Q])) tr.
Proof.
  intros tr.
  apply (plot_split_value_histogram_default_ranges true
           (HBooster demo_booster) (FIndex 0) None None 0.8 None None None
           None true ∅ [] tr (NewAxes None)).
  vm_compute; reflexivity.
Defined.

Lemma plot_split_value_histogram_title_witness :
  In (SetTitle "Split value histogram for feature with name f0")
    (fst (run (plot_split_value_histogram true (HBooster demo_booster)
                 (FName "f0") None None 0.8 None None
                 (Some "Split value histogram for feature with @index/name@ @feature@")
                 None None None true ∅))).
Proof.
  destruct (plot_split_value_histogram_title true (HBooster demo_booster)
              (FName "f0") None None 0.8 None None
              "Split value histogram for feature with @index/name@ @feature@"
              None None None true ∅ []
              (fst (run (plot_split_value_histogram true
                           (HBooster demo_booster) (FName "f0") None None 0.8
                           None None
                           (Some "Split value histogram for feature with @index/name@ @feature@")
                           None None None true ∅)))
              (NewAxes None)) as [_ H].
  - vm_compute; reflexivity.
  - exact (H eq_refl eq_refl).
Defined.

Lemma plot_metric_empty_record_witness :
  run (plot_metric true (HDict []) None None None None None None None
         (Some "auto") None true)
  = ([], Raise (ValueError "eval results cannot be empty.")).
Proof.
  apply (plot_metric_empty_record true (HDict []) None None None None None
           None None (Some "auto") None true []); reflexivity.
Defined.

Lemma plot_metric_lookup_errors_witness :
  plot_metric true (HDict demo_evals) (Some "auc") None None None None None
    None (Some "auto") None true []
  = ([Subplots None], Raise (KeyError "No given metric in eval results.")).
Proof.
  destruct (plot_metric_lookup_errors true (HDict demo_evals) demo_evals
              (Some "auc") None "train" [] None (NewAxes None) None None None
              None (Some "auto") None true [] [Subplots None]
              eq_refl eq_refl) as [_ H];
    [discriminate | reflexivity | reflexivity |].
  apply (H [("l2", [0.5; 0.3; 0.2]%Q)] "auc"); reflexivity.
Defined.

Lemma plot_metric_line_labels_witness :
  let tr := fst (run (plot_metric true (HDict demo_evals2) None
                        (Some (NamesSeq ["valid"; "train"])) None None None
                        None None (Some "auto") None true)) in
  exists er,
    evals_of (HDict demo_evals2) = Some er
    /\ plot_labels tr = names_of (Some (NamesSeq ["valid"; "train"])) er
    /\ In Legend tr.
Proof.
  intros tr.
  apply (plot_metric_line_labels true (HDict demo_evals2) None
           (Some (NamesSeq ["valid"; "train"])) None None None None None
           (Some "auto") None true tr (NewAxes None)).
  vm_compute; reflexivity.
Defined.

Lemma plot_metric_first_dataset_twice_witness :
  plot_metric true (HDict demo_evals2) None
    (Some (NamesSeq ["train"; "valid"; "train"])) None None None None None
    (Some "auto") None true []
  <> ([], Ok (NewAxes None)).
Proof.
  apply (plot_metric_first_dataset_twice true (HDict demo_evals2) demo_evals2
           "train" ["valid"; "train"]
           [("l1", [0.4; 0.3]%Q); ("l2", [0.5; 0.2]%Q)]);
    [reflexivity | reflexivity | | simpl; auto].
  apply (bool_decide_unpack (NoDup ["l1"; "l2"])). vm_compute. exact I.
Defined.

Lemma plot_metric_warning_witness :
  let tr := fst (run (plot_metric true (HDict demo_evals2) None None None
                        None None None None (Some "auto") None true)) in
  exists er name rest metrics,
    evals_of (HDict demo_evals2) = Some er
    /\ names_of None er = name :: rest
    /\ dict_get er name = Some metrics
    /\ (existsb is_warning tr = true
        <-> @None string = None /\ (1 < length metrics)%nat).
Proof.
  intros tr.
  apply (plot_metric_warning true (HDict demo_evals2) None None None None
           None None None (Some "auto") None true tr (NewAxes None)).
  vm_compute; reflexivity.
Defined.

Lemma plot_metric_ylabel_witness :
  let tr := fst (run (plot_metric true (HDict demo_evals2) None None None
                        None None None None (Some "auto") None true)) in
  exists er name rest metrics m,
    evals_of (HDict demo_evals2) = Some er
    /\ names_of None er = name :: rest
    /\ dict_get er name = Some metrics
    /\ In m (map fst metrics)
    /\ (forall m0, @None string = Some m0 -> m = m0)
    /\ (@None string = None -> exists results, last metrics = Some (m, results))
    /\ In (SetYlabel (if String.eqb "auto" "auto" then m else "auto")) tr.
Proof.
  intros tr.
  apply (plot_metric_ylabel true (HDict demo_evals2) None None None None None
           None None "auto" None true [] tr (NewAxes None)).
  vm_compute; reflexivity.
Defined.

Lemma to_graphviz_nodes_in_preorder_witness :
  exists graph,
    _to_graphviz true sample_str sample_fixed
      {| tree_structure := stump_categorical |} ["leaf_count"] None (Some 3) ∅
    = Ok graph
    /\ graph_kwargs graph = ∅
    /\ node_names (body graph) = ["split0"; "leaf0"; "leaf1"]
    /\ exists label rest, body graph = Node "split0" label :: rest.
Proof.
  destruct (_to_graphviz true sample_str sample_fixed
              {| tree_structure := stump_categorical |} ["leaf_count"] None
              (Some 3) ∅) as [graph|e] eqn:E.
  - exists graph. split; [reflexivity |].
    exact (to_graphviz_nodes_in_preorder true sample_str sample_fixed
             {| tree_structure := stump_categorical |} ["leaf_count"] None
             (Some 3) ∅ graph E).
  - vm_compute in E. discriminate E.
Defined.

Lemma create_tree_digraph_index_errors_witness :
  create_tree_digraph true sample_str sample_fixed (HBooster demo_booster) 2
    None None no_old_params ∅ []
  = ([DumpModel], Raise (IndexError "tree_index is out of range."))
  /\ create_tree_digraph true sample_str sample_fixed (HBooster demo_booster)
       (-3) None None no_old_params ∅ []
     = ([DumpModel], Raise (IndexError "list index out of range")).
Proof.
  split.
  - destruct (create_tree_digraph_index_errors true sample_str sample_fixed
                (HBooster demo_booster) demo_booster 2 None None
                no_old_params ∅ [] eq_refl) as [H _].
    apply H. simpl. lia.
  - destruct (create_tree_digraph_index_errors true sample_str sample_fixed
                (HBooster demo_booster) demo_booster (-3) None None
                no_old_params ∅ [] eq_refl) as [_ H].
    destruct H as [_ H]; [simpl; lia |].
    apply H. reflexivity.
Defined.

Lemma create_tree_digraph_selects_tree_witness :
  exists kwargs' ti,
    tree_info (dump_model demo_booster) !! Z.to_nat 1 = Some ti
    /\ (forall k, kwargs' !! k
                  = match (∅ : gmap string pyobj) !! k with
                    | Some v => Some v
                    | None =>
                        deprecated_value
                          (create_tree_digraph_frame 1 None None name_only)
                          digraph_old_names k
                    end)
    /\ create_tree_digraph true sample_str sample_fixed (HBooster demo_booster)
         1 None None name_only ∅ []
       = ([] ++ deprecation_warnings
                  (create_tree_digraph_frame 1 None None name_only)
                  digraph_old_names ++ [DumpModel],
          _to_graphviz true sample_str sample_fixed ti []
            (feature_names (dump_model demo_booster)) None kwargs').
Proof.
  apply (create_tree_digraph_selects_tree true sample_str sample_fixed
           (HBooster demo_booster) demo_booster 1 None None name_only ∅ []);
    [reflexivity | simpl; lia].
Defined.

Lemma create_tree_digraph_options_witness :
  exists tr graph,
    create_tree_digraph true sample_str sample_fixed (HBooster demo_booster) 0
      None None name_only {[ "comment" := OStr "c" ]} [] = (tr, Ok graph)
    /\ graph_kwargs graph !! "comment" = Some (OStr "c")
    /\ graph_kwargs graph !! "name" = Some (OStr "g")
    /\ graph_kwargs graph !! "strict" = None.
Proof.
  destruct (create_tree_digraph true sample_str sample_fixed
              (HBooster demo_booster) 0 None None name_only
              {[ "comment" := OStr "c" ]} []) as [tr [graph|e]] eqn:E.
  - exists tr, graph. split; [reflexivity |].
    destruct (create_tree_digraph_options true sample_str sample_fixed
                (HBooster demo_booster) 0 None None name_only
                {[ "comment" := OStr "c" ]} [] tr graph E) as (H1 & H2 & H3).
    split; [apply H1; reflexivity |].
    split.
    + apply (H2 "old_name"); [simpl; auto | reflexivity].
    + rewrite (H3 "strict"); [reflexivity |].
      intros name Hin. simpl in Hin.
      repeat (destruct Hin as [<- | Hin]; [discriminate |]). destruct Hin.
  - vm_compute in E. discriminate E.
Defined.


Lemma plotters_use_given_axes_witness :
  exists tr,
    run (plot_importance true sample_str sample_fixed (HBooster demo_booster)
           (Some (CallerAxes 1)) 0.2 None None None None None "split" None
           true (Some (OStr "wide")) true None ∅) = (tr, Ok (CallerAxes 1))
    /\ existsb is_subplots tr = false.
Proof.
  destruct (plotters_use_given_axes true sample_str sample_fixed
              (CallerAxes 1) (Some (OStr "wide")) None) as [H _].
  destruct (H (HBooster demo_booster) 0.2%Q None None None None None "split"
              None true true None ∅) as [_ H'].
  destruct (run (plot_importance true sample_str sample_fixed
                   (HBooster demo_booster) (Some (CallerAxes 1)) 0.2 None None
                   None None None "split" None true (Some (OStr "wide")) true
                   None ∅)) as [tr [ax'|e]] eqn:E.
  - destruct (H' tr ax' eq_refl) as [-> Hs]. exists tr. split; [reflexivity | exact Hs].
  - vm_compute in E. discriminate E.
Defined.
